(** * Housing analyzer: the calculation engine of [src/calculator.ts]

    A shallow embedding of the investment calculator (amortization,
    net proceeds, loan selection, scenario evaluation, scenario
    enumeration, Pareto frontier) together with the enumeration and the
    chart data that [src/App.tsx] builds on top of it.

    Numbers.  The TypeScript type [number] is embedded as the rationals
    [Q]: every arithmetic operator is the exact one and every comparison
    is the order of [Q].  Rounding, infinities and NaN of IEEE doubles
    are outside this model; the equations below are equations of exact
    arithmetic, stated with [==] ([Qeq]) where arithmetic is involved.
    A quotient by zero, an infinity or NaN in the host language, is 0 in
    [Q]; no property below rests on the value of such a quotient.
    Where a property is about the rounding itself, the lines concerned
    are transcribed a second time in binary64 arithmetic (module
    [Double]), and the property is decided there.
    [Math.pow] and the conversion of a number to a string are library
    functions of the host language; they are parameters of the
    development. *)

From Stdlib Require Import QArith Qround Qminmax ZArith Bool List String Lia Lqa.
From Stdlib Require Import Permutation Sorted DecimalString.
From Stdlib Require Floats.PrimFloat.
Import ListNotations.
Open Scope Q_scope.

Set Implicit Arguments.

(** ** Numbers and the host language's operators *)

Definition number := Q.

(** [a < b], [a > b], [a >= b], [a === b] on numbers. *)
Definition ltb (a b : number) : bool := negb (Qle_bool b a).
Definition gtb (a b : number) : bool := ltb b a.
Definition geb (a b : number) : bool := Qle_bool b a.
Definition strict_eqb (a b : number) : bool := Qeq_bool a b.

(** Truthiness of a number: every number but zero. *)
Definition truthy (a : number) : bool := negb (strict_eqb a 0).

(** [Array.prototype.reduce] without an initial value: the first
    element seeds the accumulator; on the empty array the call throws,
    which is [None] here. *)
Definition reduce (A : Type) (f : A -> A -> A) (l : list A) : option A :=
  match l with
  | [] => None
  | first :: rest => Some (fold_left f rest first)
  end.

(** ** Data model ([types.ts]) *)

Inductive PropertyType := T1B1B | T2B2B | T3B2B.

Inductive LoanType := conventional | va | fha.

Module XiamenProperty.
Record t := mk {
  marketValue : number;
  monthlyRent : number;
  exchangeRate : number;
  sellingCostRate : number
}.
End XiamenProperty.

Module SDPropertyOption.
Record t := mk {
  type : PropertyType;
  price : number;
  monthlyRent : number;
  rooms : number;
  appreciationRate : number;
  hoaAndTax : number
}.
End SDPropertyOption.

Module LoanOption.
Record t := mk {
  name : string;
  type : LoanType;
  interestRate : number;
  minDownPayment : number;
  pmi : option number
}.
End LoanOption.

Module Borrower.
Record t := mk {
  name : string;
  monthlyIncome : number;
  loanOptions : list LoanOption.t
}.
End Borrower.

Module InvestmentScenario.
Record t := mk {
  id : string;
  name : string;
  sellXiamen : bool;
  sdProperty : option SDPropertyOption.t;
  downPaymentPercent : number;
  borrower : option Borrower.t;
  roomsToRent : number;
  sdRentIfNotBuying : number
}.
End InvestmentScenario.

Module CalculationResult.
Record t := mk {
  scenario : InvestmentScenario.t;
  initialInvestment : number;
  downPayment : number;
  closingCosts : number;
  remainingCash : number;
  monthlyMortgage : number;
  monthlyHOATax : number;
  monthlyRentalIncome : number;
  monthlyImputedRent : number;
  monthlyTotalIncome : number;
  monthlyCashflow : number;
  monthlyEffectiveCashflow : number;
  annualCashflow : number;
  annualEffectiveCashflow : number;
  cashflowAPY : number;
  effectiveCashflowAPY : number;
  year5PropertyValue : number;
  year5Equity : number;
  year5TotalReturn : number;
  year5ROI : number;
  year5AnnualizedROI : number;
  dti : number;
  mortgageToIncomeRatio : number
}.
End CalculationResult.

(** ** Loan selection *)

(** [getBestLoanOption]: keep the options whose minimum down payment is
    met, then reduce to the lowest rate; the accumulator is replaced
    only by a strictly lower rate. *)
Definition lowerRate (best current : LoanOption.t) : LoanOption.t :=
  if ltb (LoanOption.interestRate current) (LoanOption.interestRate best)
  then current else best.

Definition qualifies (downPaymentPercent : number) (opt : LoanOption.t) : bool :=
  geb downPaymentPercent (LoanOption.minDownPayment opt).

Definition getBestLoanOption (borrower : Borrower.t) (downPaymentPercent : number)
  : option LoanOption.t :=
  let validOptions :=
    filter (qualifies downPaymentPercent) (Borrower.loanOptions borrower) in
  if (List.length validOptions =? 0)%nat then None
  else reduce lowerRate validOptions.

(** ** Net proceeds of the sale *)

Definition calculateXiamenNetProceeds (xiamen : XiamenProperty.t) : number :=
  let grossUSD := XiamenProperty.marketValue xiamen / XiamenProperty.exchangeRate xiamen in
  let netUSD := grossUSD * (1 - XiamenProperty.sellingCostRate xiamen) in
  netUSD.

Section Engine.

(** [Math.pow] of the host language. *)
Variable Math_pow : number -> number -> number.

(** ** Amortization *)

Definition calculateMonthlyMortgage (principal annualRate years : number) : number :=
  let monthlyRate := annualRate / 12 in
  let numPayments := years * 12 in
  if strict_eqb monthlyRate 0 then principal / numPayments
  else
    let payment :=
      principal *
      (monthlyRate * Math_pow (1 + monthlyRate) numPayments) /
      (Math_pow (1 + monthlyRate) numPayments - 1) in
    payment.

Definition calculateRemainingBalance
  (principal annualRate years paymentsMade : number) : number :=
  let monthlyRate := annualRate / 12 in
  let numPayments := years * 12 in
  if strict_eqb monthlyRate 0
  then principal - (principal / numPayments) * paymentsMade
  else
    let balance :=
      principal *
      (Math_pow (1 + monthlyRate) numPayments - Math_pow (1 + monthlyRate) paymentsMade) /
      (Math_pow (1 + monthlyRate) numPayments - 1) in
    balance.

(** ** Scenario evaluation *)

(** The financing resolved inside [calculateScenario]: the interest
    rate and the monthly insurance premium.  Both start from the
    defaults (6.5%, no premium) and are overwritten only when a borrower
    is attached and a loan option qualifies. *)
Definition financing (borrower : option Borrower.t) (downPaymentPercent : number)
  : number * number :=
  let interestRate := 0.065 in
  let pmi := 0 in
  match borrower with
  | Some b =>
    match getBestLoanOption b downPaymentPercent with
    | Some loanOption =>
      let interestRate := LoanOption.interestRate loanOption in
      match LoanOption.pmi loanOption with
      | Some p =>
        if truthy p && ltb downPaymentPercent 0.2
        then (interestRate, p) else (interestRate, pmi)
      | None => (interestRate, pmi)
      end
    | None => (interestRate, pmi)
    end
  | None => (interestRate, pmi)
  end.

(** [scenario.borrower?.monthlyIncome || 5000] *)
Definition incomeOrDefault (borrower : option Borrower.t) : number :=
  match borrower with
  | Some b => if truthy (Borrower.monthlyIncome b) then Borrower.monthlyIncome b else 5000
  | None => 5000
  end.

(** Branch 1 of [calculateScenario]: keep the Xiamen flat, rent in SD. *)
Definition holdAndRent (scenario : InvestmentScenario.t) (xiamen : XiamenProperty.t)
  (analysisYears : number) : CalculationResult.t :=
  let xiamenMonthlyRentUSD :=
    XiamenProperty.monthlyRent xiamen / XiamenProperty.exchangeRate xiamen in
  let xiamenValueUSD :=
    XiamenProperty.marketValue xiamen / XiamenProperty.exchangeRate xiamen in
  let sdRent := InvestmentScenario.sdRentIfNotBuying scenario in
  let monthlyCashflow := xiamenMonthlyRentUSD - sdRent in
  let annualCashflow := monthlyCashflow * 12 in
  let year5Value := xiamenValueUSD in
  let totalCashflow5Y := annualCashflow * analysisYears in
  let year5TotalReturn := year5Value + totalCashflow5Y - xiamenValueUSD in
  {| CalculationResult.scenario := scenario;
     CalculationResult.initialInvestment := xiamenValueUSD;
     CalculationResult.downPayment := 0;
     CalculationResult.closingCosts := 0;
     CalculationResult.remainingCash := 0;
     CalculationResult.monthlyMortgage := 0;
     CalculationResult.monthlyHOATax := 0;
     CalculationResult.monthlyRentalIncome := xiamenMonthlyRentUSD;
     CalculationResult.monthlyImputedRent := 0;
     CalculationResult.monthlyTotalIncome := xiamenMonthlyRentUSD;
     CalculationResult.monthlyCashflow := monthlyCashflow;
     CalculationResult.monthlyEffectiveCashflow := monthlyCashflow;
     CalculationResult.annualCashflow := annualCashflow;
     CalculationResult.annualEffectiveCashflow := annualCashflow;
     CalculationResult.cashflowAPY := (annualCashflow / xiamenValueUSD) * 100;
     CalculationResult.effectiveCashflowAPY := (annualCashflow / xiamenValueUSD) * 100;
     CalculationResult.year5PropertyValue := year5Value;
     CalculationResult.year5Equity := year5Value;
     CalculationResult.year5TotalReturn := year5TotalReturn;
     CalculationResult.year5ROI := (year5TotalReturn / xiamenValueUSD) * 100;
     CalculationResult.year5AnnualizedROI :=
       (Math_pow (1 + year5TotalReturn / xiamenValueUSD) (1 / analysisYears) - 1) * 100;
     CalculationResult.dti := 0;
     CalculationResult.mortgageToIncomeRatio := 0 |}.

(** Branch 2 of [calculateScenario]: sell Xiamen, buy [property] in SD. *)
Definition sellAndBuy (scenario : InvestmentScenario.t) (property : SDPropertyOption.t)
  (xiamen : XiamenProperty.t) (analysisYears : number) : CalculationResult.t :=
  let xiamenNetProceeds := calculateXiamenNetProceeds xiamen in
  let downPaymentPercent := InvestmentScenario.downPaymentPercent scenario in
  let downPayment := SDPropertyOption.price property * downPaymentPercent in
  let closingCosts := SDPropertyOption.price property * 0.03 in
  let loanAmount := SDPropertyOption.price property - downPayment in
  let '(interestRate, pmi) :=
    financing (InvestmentScenario.borrower scenario) downPaymentPercent in
  let totalInitialCost := downPayment + closingCosts in
  let remainingCash := xiamenNetProceeds - totalInitialCost in
  let monthlyMortgage := calculateMonthlyMortgage loanAmount interestRate 30 in
  let monthlyHOATax := SDPropertyOption.hoaAndTax property in
  let monthlyRentalIncome :=
    SDPropertyOption.monthlyRent property * InvestmentScenario.roomsToRent scenario in
  let monthlyImputedRent := InvestmentScenario.sdRentIfNotBuying scenario in
  let monthlyTotalIncome := monthlyRentalIncome + monthlyImputedRent in
  let totalMonthlyPayment := monthlyMortgage + monthlyHOATax + pmi in
  let monthlyCashflow := monthlyRentalIncome - totalMonthlyPayment in
  let monthlyEffectiveCashflow := monthlyTotalIncome - totalMonthlyPayment in
  let annualCashflow := monthlyCashflow * 12 in
  let annualEffectiveCashflow := monthlyEffectiveCashflow * 12 in
  let cashflowAPY := (annualCashflow / totalInitialCost) * 100 in
  let effectiveCashflowAPY := (annualEffectiveCashflow / totalInitialCost) * 100 in
  let year5PropertyValue :=
    SDPropertyOption.price property *
    Math_pow (1 + SDPropertyOption.appreciationRate property) analysisYears in
  let year5LoanBalance :=
    calculateRemainingBalance loanAmount interestRate 30 (analysisYears * 12) in
  let year5Equity := year5PropertyValue - year5LoanBalance in
  let totalEffectiveCashflow5Y := annualEffectiveCashflow * analysisYears in
  let year5NetWorth := year5Equity + remainingCash + totalEffectiveCashflow5Y in
  let year5TotalReturn := year5NetWorth - xiamenNetProceeds in
  let year5ROI := (year5TotalReturn / xiamenNetProceeds) * 100 in
  let year5AnnualizedROI :=
    (Math_pow (year5NetWorth / xiamenNetProceeds) (1 / analysisYears) - 1) * 100 in
  let monthlyIncome := incomeOrDefault (InvestmentScenario.borrower scenario) in
  let dti := (totalMonthlyPayment / monthlyIncome) * 100 in
  let mortgageToIncomeRatio := (monthlyMortgage / monthlyIncome) * 100 in
  {| CalculationResult.scenario := scenario;
     CalculationResult.initialInvestment := xiamenNetProceeds;
     CalculationResult.downPayment := downPayment;
     CalculationResult.closingCosts := closingCosts;
     CalculationResult.remainingCash := remainingCash;
     CalculationResult.monthlyMortgage := monthlyMortgage;
     CalculationResult.monthlyHOATax := monthlyHOATax;
     CalculationResult.monthlyRentalIncome := monthlyRentalIncome;
     CalculationResult.monthlyImputedRent := monthlyImputedRent;
     CalculationResult.monthlyTotalIncome := monthlyTotalIncome;
     CalculationResult.monthlyCashflow := monthlyCashflow;
     CalculationResult.monthlyEffectiveCashflow := monthlyEffectiveCashflow;
     CalculationResult.annualCashflow := annualCashflow;
     CalculationResult.annualEffectiveCashflow := annualEffectiveCashflow;
     CalculationResult.cashflowAPY := cashflowAPY;
     CalculationResult.effectiveCashflowAPY := effectiveCashflowAPY;
     CalculationResult.year5PropertyValue := year5PropertyValue;
     CalculationResult.year5Equity := year5Equity;
     CalculationResult.year5TotalReturn := year5TotalReturn;
     CalculationResult.year5ROI := year5ROI;
     CalculationResult.year5AnnualizedROI := year5AnnualizedROI;
     CalculationResult.dti := dti;
     CalculationResult.mortgageToIncomeRatio := mortgageToIncomeRatio |}.

(** [calculateScenario]: the guard
    [!scenario.sellXiamen || !scenario.sdProperty] selects the branch. *)
Definition calculateScenario (scenario : InvestmentScenario.t) (xiamen : XiamenProperty.t)
  (analysisYears : number) : CalculationResult.t :=
  match InvestmentScenario.sellXiamen scenario, InvestmentScenario.sdProperty scenario with
  | true, Some property => sellAndBuy scenario property xiamen analysisYears
  | _, _ => holdAndRent scenario xiamen analysisYears
  end.

Definition calculateAllScenarios (scenarios : list InvestmentScenario.t)
  (xiamen : XiamenProperty.t) (analysisYears : number) : list CalculationResult.t :=
  map (fun s => calculateScenario s xiamen analysisYears) scenarios.

(** ** Scenario enumeration *)

(** Conversions of the host language used by the template strings:
    [`${x}`] and [x.toFixed(0)]. *)
Variable Number_toString : number -> string.
Variable Number_toFixed0 : number -> string.

Definition PropertyType_toString (t : PropertyType) : string :=
  match t with
  | T1B1B => "1B1B"
  | T2B2B => "2B2B"
  | T3B2B => "3B2B"
  end.

(** [for (let rooms = 0; rooms <= maxRooms; rooms++)]: the values taken
    by the loop variable, in order. *)
Definition roomCounts (maxRooms : number) : list number :=
  map (fun k => inject_Z (Z.of_nat k)) (seq 0 (Z.to_nat (Qfloor maxRooms + 1))).

Definition baseline (sdRentIfNotBuying : number) : InvestmentScenario.t :=
  {| InvestmentScenario.id := "baseline";
     InvestmentScenario.name := "持有厦门 + SD租房";
     InvestmentScenario.sellXiamen := false;
     InvestmentScenario.sdProperty := None;
     InvestmentScenario.downPaymentPercent := 0;
     InvestmentScenario.borrower := None;
     InvestmentScenario.roomsToRent := 0;
     InvestmentScenario.sdRentIfNotBuying := sdRentIfNotBuying |}.

(** The scenario pushed by the innermost loop of [generateScenarios]. *)
Definition generatedScenario (property : SDPropertyOption.t) (borrower : Borrower.t)
  (dp rooms sdRentIfNotBuying : number) : InvestmentScenario.t :=
  {| InvestmentScenario.id :=
       PropertyType_toString (SDPropertyOption.type property) ++ "-" ++
       Borrower.name borrower ++ "-" ++ Number_toString (dp * 100) ++ "%-" ++
       Number_toString rooms ++ "rooms";
     InvestmentScenario.name :=
       PropertyType_toString (SDPropertyOption.type property) ++ " (" ++
       Borrower.name borrower ++ ", " ++ Number_toString (dp * 100) ++ "%首付, 出租" ++
       Number_toString rooms ++ "间)";
     InvestmentScenario.sellXiamen := true;
     InvestmentScenario.sdProperty := Some property;
     InvestmentScenario.downPaymentPercent := dp;
     InvestmentScenario.borrower := Some borrower;
     InvestmentScenario.roomsToRent := rooms;
     InvestmentScenario.sdRentIfNotBuying := sdRentIfNotBuying |}.

Definition downPaymentOptions : list number := [0.2; 0.25; 0.3; 0.35; 0.5].

(** [generateScenarios] of [calculator.ts]; [xiamen] is a parameter of
    the source function that its body does not read. *)
Definition generateScenarios (xiamen : XiamenProperty.t)
  (sdOptions : list SDPropertyOption.t) (borrowers : list Borrower.t)
  (sdRentIfNotBuying : number) : list InvestmentScenario.t :=
  baseline sdRentIfNotBuying ::
  flat_map (fun property =>
    flat_map (fun borrower =>
      flat_map (fun dp =>
        match getBestLoanOption borrower dp with
        | None => []
        | Some _ =>
          let maxRooms := SDPropertyOption.rooms property in
          map (fun rooms => generatedScenario property borrower dp rooms sdRentIfNotBuying)
              (roomCounts maxRooms)
        end) downPaymentOptions) borrowers) sdOptions.

(** The scenario built by the innermost loop of [allResults] in
    [App.tsx]; only the display name differs from [generatedScenario]. *)
Definition appScenario (property : SDPropertyOption.t) (borrower : Borrower.t)
  (dp rooms sdRentIfNotBuying : number) : InvestmentScenario.t :=
  {| InvestmentScenario.id :=
       PropertyType_toString (SDPropertyOption.type property) ++ "-" ++
       Borrower.name borrower ++ "-" ++ Number_toString (dp * 100) ++ "%-" ++
       Number_toString rooms ++ "rooms";
     InvestmentScenario.name :=
       PropertyType_toString (SDPropertyOption.type property) ++ " (" ++
       Borrower.name borrower ++ ", " ++ Number_toFixed0 (dp * 100) ++ "%首付, 出租" ++
       Number_toString rooms ++ "间)";
     InvestmentScenario.sellXiamen := true;
     InvestmentScenario.sdProperty := Some property;
     InvestmentScenario.downPaymentPercent := dp;
     InvestmentScenario.borrower := Some borrower;
     InvestmentScenario.roomsToRent := rooms;
     InvestmentScenario.sdRentIfNotBuying := sdRentIfNotBuying |}.

Definition dpOptions : list number :=
  [0; 0.05; 0.1; 0.15; 0.2; 0.25; 0.3; 0.35; 0.4; 0.5; 0.6; 0.7; 0.8].

(** The body of one [dp] iteration of [allResults]: two [continue]
    guards, then the loop over the room counts. *)
Definition appCombination (xiamen : XiamenProperty.t) (analysisYears : number)
  (sdRentIfNotBuying : number) (property : SDPropertyOption.t) (borrower : Borrower.t)
  (dp : number) : list CalculationResult.t :=
  let xiamenNetProceeds := calculateXiamenNetProceeds xiamen in
  match getBestLoanOption borrower dp with
  | None => []
  | Some _ =>
    let downPayment := SDPropertyOption.price property * dp in
    let closingCosts := SDPropertyOption.price property * 0.03 in
    if gtb (downPayment + closingCosts) xiamenNetProceeds then []
    else
      map (fun rooms =>
             calculateScenario
               (appScenario property borrower dp rooms sdRentIfNotBuying)
               xiamen analysisYears)
          (roomCounts (SDPropertyOption.rooms property))
  end.

(** [allResults] of [App.tsx]. *)
Definition allResults (xiamen : XiamenProperty.t)
  (sdOptions : list SDPropertyOption.t) (borrowers : list Borrower.t)
  (sdRentIfNotBuying analysisYears : number) : list CalculationResult.t :=
  calculateScenario (baseline sdRentIfNotBuying) xiamen analysisYears ::
  flat_map (fun property =>
    flat_map (fun borrower =>
      flat_map (appCombination xiamen analysisYears sdRentIfNotBuying property borrower)
               dpOptions) borrowers) sdOptions.

End Engine.

(** ** Pareto frontier *)

(** The point plotted by [paretoData] of [App.tsx]. *)
Record ParetoPoint := {
  point_cashflowAPY : number;
  point_year5ROI : number;
  point_name : string;
  point_id : string
}.

Definition paretoData (allResults : list CalculationResult.t) : list ParetoPoint :=
  map (fun r =>
         {| point_cashflowAPY := CalculationResult.effectiveCashflowAPY r;
            point_year5ROI := CalculationResult.year5AnnualizedROI r;
            point_name := InvestmentScenario.name (CalculationResult.scenario r);
            point_id := InvestmentScenario.id (CalculationResult.scenario r) |})
      (filter (fun r =>
                 InvestmentScenario.sellXiamen (CalculationResult.scenario r) &&
                 ltb (CalculationResult.dti r) 43)
              allResults).

(** Results are objects and [findParetoFrontier] compares them with
    [===], that is by reference.  An array of results is a list of
    references into a store. *)
Definition ref := nat.
Definition store := ref -> CalculationResult.t.

(** The test inside the inner loop: [other] is at least as good on both
    objectives and better on one. *)
Definition dominates (other result : CalculationResult.t) : bool :=
  geb (CalculationResult.cashflowAPY other) (CalculationResult.cashflowAPY result) &&
  geb (CalculationResult.year5AnnualizedROI other)
      (CalculationResult.year5AnnualizedROI result) &&
  (gtb (CalculationResult.cashflowAPY other) (CalculationResult.cashflowAPY result) ||
   gtb (CalculationResult.year5AnnualizedROI other)
       (CalculationResult.year5AnnualizedROI result)).

(** The inner loop, with its [continue] on the result itself and its
    [break] on the first dominating result. *)
Definition isDominated (h : store) (results : list ref) (result : ref) : bool :=
  existsb (fun other =>
             if Nat.eqb result other then false
             else dominates (h other) (h result))
          results.

(** [Array.prototype.sort] with a comparator: a stable sort; an element
    moves behind another only when the comparator is positive. *)
Fixpoint insertSorted (A : Type) (compareFn : A -> A -> number) (x : A) (l : list A)
  : list A :=
  match l with
  | [] => [x]
  | y :: l' =>
    if gtb (compareFn x y) 0 then y :: insertSorted compareFn x l'
    else x :: l
  end.

Definition Array_sort (A : Type) (compareFn : A -> A -> number) (l : list A) : list A :=
  fold_right (insertSorted compareFn) [] l.

Definition findParetoFrontier (h : store) (results : list ref) : list ref :=
  let frontier := filter (fun result => negb (isDominated h results result)) results in
  Array_sort
    (fun a b => CalculationResult.cashflowAPY (h a) - CalculationResult.cashflowAPY (h b))
    frontier.

(** ** The selector as the specification words it

    Section 4.6 of the specification describes a selector over two
    objective extractors and a feasibility predicate.  The two
    definitions below follow those words; they are compared with
    [findParetoFrontier] in the properties. *)

(** "B dominates A iff B.obj1 >= A.obj1 AND B.obj2 >= A.obj2 AND
    (B.obj1 > A.obj1 OR B.obj2 > A.obj2)". *)
Definition DominationRule (obj1 obj2 : CalculationResult.t -> number)
  (B A : CalculationResult.t) : Prop :=
  obj1 A <= obj1 B /\ obj2 A <= obj2 B /\ (obj1 A < obj1 B \/ obj2 A < obj2 B).

Definition dominatesOn (obj1 obj2 : CalculationResult.t -> number)
  (B A : CalculationResult.t) : bool :=
  geb (obj1 B) (obj1 A) && geb (obj2 B) (obj2 A) &&
  (gtb (obj1 B) (obj1 A) || gtb (obj2 B) (obj2 A)).

(** Restrict to the feasible results, keep those that no feasible
    result dominates, order ascending by the first objective. *)
Definition spec_paretoSelector (obj1 obj2 : CalculationResult.t -> number)
  (feasible : CalculationResult.t -> bool) (h : store) (results : list ref) : list ref :=
  let filtered := filter (fun r => feasible (h r)) results in
  Array_sort (fun a b => obj1 (h a) - obj1 (h b))
    (filter (fun r => negb (existsb (fun o => dominatesOn obj1 obj2 (h o) (h r)) filtered))
            filtered).

(** The default feasibility predicate: debt-to-income below 43%. *)
Definition dtiBelow43 (r : CalculationResult.t) : bool := ltb (CalculationResult.dti r) 43.

(** ** The enumeration as the specification words it

    Section 4.5 describes the scenario space as a product of candidate
    properties, down-payment fractions of a grid, borrowers and integer
    room counts from 0 to the candidate's room count, from which some
    combinations are skipped, plus one baseline.  [kept] is the rule
    that says which combinations are not skipped. *)

(** The scenario [s] is the combination of [property], [borrower],
    [dp] and [rooms]. *)
Definition combination (s : InvestmentScenario.t) (property : SDPropertyOption.t)
  (borrower : Borrower.t) (dp rooms sdRentIfNotBuying : number) : Prop :=
  InvestmentScenario.sellXiamen s = true /\
  InvestmentScenario.sdProperty s = Some property /\
  InvestmentScenario.borrower s = Some borrower /\
  InvestmentScenario.downPaymentPercent s = dp /\
  InvestmentScenario.roomsToRent s = rooms /\
  InvestmentScenario.sdRentIfNotBuying s = sdRentIfNotBuying.

Definition inProduct (grid : list number) (sdOptions : list SDPropertyOption.t)
  (borrowers : list Borrower.t) (property : SDPropertyOption.t) (borrower : Borrower.t)
  (dp : number) (k : Z) : Prop :=
  In property sdOptions /\ In borrower borrowers /\ In dp grid /\
  (0 <= k)%Z /\ inject_Z k <= SDPropertyOption.rooms property.

(** Every kept combination of the product is among the scenarios. *)
Definition emitsEvery (kept : SDPropertyOption.t -> Borrower.t -> number -> Prop)
  (grid : list number) (sdOptions : list SDPropertyOption.t) (borrowers : list Borrower.t)
  (sdRentIfNotBuying : number) (scenarios : list InvestmentScenario.t) : Prop :=
  forall property borrower dp k,
    inProduct grid sdOptions borrowers property borrower dp k ->
    kept property borrower dp ->
    exists s, In s scenarios /\
      combination s property borrower dp (inject_Z k) sdRentIfNotBuying.

(** Every sell-and-buy scenario is a kept combination of the product. *)
Definition emitsOnly (kept : SDPropertyOption.t -> Borrower.t -> number -> Prop)
  (grid : list number) (sdOptions : list SDPropertyOption.t) (borrowers : list Borrower.t)
  (sdRentIfNotBuying : number) (scenarios : list InvestmentScenario.t) : Prop :=
  forall s, In s scenarios -> InvestmentScenario.sellXiamen s = true ->
    exists property borrower dp k,
      inProduct grid sdOptions borrowers property borrower dp k /\
      kept property borrower dp /\
      combination s property borrower dp (inject_Z k) sdRentIfNotBuying.

(** Exactly one scenario keeps the Xiamen flat, and it is the baseline. *)
Definition oneBaseline (sdRentIfNotBuying : number)
  (scenarios : list InvestmentScenario.t) : Prop :=
  exists l1 l2,
    scenarios = l1 ++ baseline sdRentIfNotBuying :: l2 /\
    forall s, In s (l1 ++ l2) -> InvestmentScenario.sellXiamen s = true.

(** The skip rule of section 4.5, first item: a loan option qualifies. *)
Definition loanQualifies (property : SDPropertyOption.t) (borrower : Borrower.t)
  (dp : number) : Prop :=
  getBestLoanOption borrower dp <> None.

(** The affordability gate: down payment plus closing costs do not
    exceed the net proceeds of the sale. *)
Definition affordable (xiamen : XiamenProperty.t) (property : SDPropertyOption.t)
  (dp : number) : Prop :=
  SDPropertyOption.price property * dp + SDPropertyOption.price property * 0.03
  <= calculateXiamenNetProceeds xiamen.

Definition loanQualifiesAndAffordable (xiamen : XiamenProperty.t)
  (property : SDPropertyOption.t) (borrower : Borrower.t) (dp : number) : Prop :=
  loanQualifies property borrower dp /\ affordable xiamen property dp.

(** ** Sample results

    A result record whose objectives and DTI are given and whose other
    fields are those of the baseline. *)
Definition sampleResult (id : string) (cashflowAPY effectiveCashflowAPY
  year5AnnualizedROI dti : number) : CalculationResult.t :=
  {| CalculationResult.scenario :=
       InvestmentScenario.mk id id true None 0 None 0 0;
     CalculationResult.initialInvestment := 0;
     CalculationResult.downPayment := 0;
     CalculationResult.closingCosts := 0;
     CalculationResult.remainingCash := 0;
     CalculationResult.monthlyMortgage := 0;
     CalculationResult.monthlyHOATax := 0;
     CalculationResult.monthlyRentalIncome := 0;
     CalculationResult.monthlyImputedRent := 0;
     CalculationResult.monthlyTotalIncome := 0;
     CalculationResult.monthlyCashflow := 0;
     CalculationResult.monthlyEffectiveCashflow := 0;
     CalculationResult.annualCashflow := 0;
     CalculationResult.annualEffectiveCashflow := 0;
     CalculationResult.cashflowAPY := cashflowAPY;
     CalculationResult.effectiveCashflowAPY := effectiveCashflowAPY;
     CalculationResult.year5PropertyValue := 0;
     CalculationResult.year5Equity := 0;
     CalculationResult.year5TotalReturn := 0;
     CalculationResult.year5ROI := 0;
     CalculationResult.year5AnnualizedROI := year5AnnualizedROI;
     CalculationResult.dti := dti;
     CalculationResult.mortgageToIncomeRatio := 0 |}.

(** A store with one result whose DTI is 50%. *)
Definition storeOverDTI : store :=
  fun _ => sampleResult "over-dti" 4 6 8 50.

(** A store with two feasible results of equal ROI: result 0 has the
    lower actual APY and the higher effective APY. *)
Definition storeTwo : store :=
  fun r => match r with
           | O => sampleResult "a" 1 5 7 30
           | _ => sampleResult "b" 2 3 7 30
           end.

(** ** The default parameters of [App.tsx] *)

Definition defaultXiamen : XiamenProperty.t :=
  {| XiamenProperty.marketValue := 2800000;
     XiamenProperty.monthlyRent := 2800;
     XiamenProperty.exchangeRate := 7.27;
     XiamenProperty.sellingCostRate := 0.036 |}.

Definition sd1B1B : SDPropertyOption.t :=
  SDPropertyOption.mk T1B1B 420000 1800 1 0.02 750.
Definition sd2B2B : SDPropertyOption.t :=
  SDPropertyOption.mk T2B2B 550000 1200 2 0.03 850.
Definition sd3B2B : SDPropertyOption.t :=
  SDPropertyOption.mk T3B2B 750000 1100 3 0.035 1000.

Definition defaultSDOptions : list SDPropertyOption.t := [sd1B1B; sd2B2B; sd3B2B].

Definition conventionalLoan : LoanOption.t :=
  LoanOption.mk "Conventional" conventional 0.065 0.2 (Some 150).

Definition vaLoan : LoanOption.t :=
  LoanOption.mk "VA Loan" va 0.055 0 (Some 0).

Definition jinglin : Borrower.t := Borrower.mk "我 (Jinglin)" 3500 [conventionalLoan].
Definition gavin : Borrower.t := Borrower.mk "Gavin" 8000 [conventionalLoan].
Definition xiaoyu : Borrower.t :=
  Borrower.mk "小雨 (VA Loan)" 6000 [vaLoan; conventionalLoan].

Definition defaultBorrowers : list Borrower.t := [jinglin; gavin; xiaoyu].

(** The scenario of [currentResult] under the initial selection of
    [App.tsx]: the 2B2B, the third borrower, 20% down, two rooms let. *)
Definition currentScenario : InvestmentScenario.t :=
  {| InvestmentScenario.id := "current";
     InvestmentScenario.name := "2B2B (小雨 (VA Loan), 20%首付, 出租2间)";
     InvestmentScenario.sellXiamen := true;
     InvestmentScenario.sdProperty := Some sd2B2B;
     InvestmentScenario.downPaymentPercent := 0.2;
     InvestmentScenario.borrower := Some xiaoyu;
     InvestmentScenario.roomsToRent := 2;
     InvestmentScenario.sdRentIfNotBuying := 850 |}.

(** A scenario that asks to sell but names no property to buy. *)
Definition sellWithoutProperty : InvestmentScenario.t :=
  {| InvestmentScenario.id := "sell-only";
     InvestmentScenario.name := "sell-only";
     InvestmentScenario.sellXiamen := true;
     InvestmentScenario.sdProperty := None;
     InvestmentScenario.downPaymentPercent := 0.2;
     InvestmentScenario.borrower := Some xiaoyu;
     InvestmentScenario.roomsToRent := 1;
     InvestmentScenario.sdRentIfNotBuying := 850 |}.

(** ** Instances of the host functions on integral arguments

    [Math.pow] with an integer exponent is the exact power, and an
    integer-valued number prints as its decimal numeral.  These two
    functions agree with the host language there and are used to run
    the engine on concrete inputs.  On an exponent that is not an
    integer [pow_integral] is not [Math.pow]. *)
Definition pow_integral (x y : number) : number := Qpower x (Qfloor y).

Definition toString_integral (x : number) : string :=
  NilZero.string_of_int (Z.to_int (Qfloor x)).

(** ** The derived values and handlers of [App.tsx] *)

Definition PropertyType_eqb (a b : PropertyType) : bool :=
  match a, b with
  | T1B1B, T1B1B | T2B2B, T2B2B | T3B2B, T3B2B => true
  | _, _ => false
  end.

(** [allResults.find(r => r.scenario.id === 'baseline')]; the source
    asserts the result with [!]. *)
Definition baselineResult (allResults : list CalculationResult.t)
  : option CalculationResult.t :=
  find (fun r => String.eqb (InvestmentScenario.id (CalculationResult.scenario r))
                            "baseline")
       allResults.

(** The [onChange] handler of the price input: the option of the
    selected type gets the new price, the others are kept. *)
Definition onPriceChange (sdOptions : list SDPropertyOption.t)
  (selectedPropertyType : PropertyType) (value : number) : list SDPropertyOption.t :=
  map (fun p =>
         if PropertyType_eqb (SDPropertyOption.type p) selectedPropertyType
         then {| SDPropertyOption.type := SDPropertyOption.type p;
                 SDPropertyOption.price := value;
                 SDPropertyOption.monthlyRent := SDPropertyOption.monthlyRent p;
                 SDPropertyOption.rooms := SDPropertyOption.rooms p;
                 SDPropertyOption.appreciationRate := SDPropertyOption.appreciationRate p;
                 SDPropertyOption.hoaAndTax := SDPropertyOption.hoaAndTax p |}
         else p)
      sdOptions.

(** [sdOptions.find(p => p.type === selectedPropertyType)] *)
Definition selectedProperty (sdOptions : list SDPropertyOption.t)
  (selectedPropertyType : PropertyType) : option SDPropertyOption.t :=
  find (fun p => PropertyType_eqb (SDPropertyOption.type p) selectedPropertyType) sdOptions.

Section AppDerived.

Variable Math_pow : number -> number -> number.
Variable Number_toString : number -> string.
Variable Number_toFixed0 : number -> string.


(** ** The single-borrower variant of the application *)

(** [calculateStockInvestment]: the down payment invested in stocks
    while renting. *)
Record StockInvestmentResult := {
  stock_initialInvestment : number;
  stock_stockReturn : number;
  stock_yearNValue : number;
  stock_yearNGain : number;
  stock_annualizedROI : number;
  stock_totalRentPaid : number;
  stock_netGainAfterRent : number
}.

Definition calculateStockInvestment (initialInvestment annualReturn years monthlyRent : number)
  : StockInvestmentResult :=
  let yearNValue := initialInvestment * Math_pow (1 + annualReturn) years in
  let yearNGain := yearNValue - initialInvestment in
  let totalRentPaid := monthlyRent * 12 * years in
  let netGainAfterRent := yearNGain - totalRentPaid in
  let annualizedROI :=
    (Math_pow (yearNValue / initialInvestment) (1 / years) - 1) * 100 in
  {| stock_initialInvestment := initialInvestment;
     stock_stockReturn := annualReturn;
     stock_yearNValue := yearNValue;
     stock_yearNGain := yearNGain;
     stock_annualizedROI := annualizedROI;
     stock_totalRentPaid := totalRentPaid;
     stock_netGainAfterRent := netGainAfterRent |}.

End AppDerived.

Module CoBorrower.
Record t := mk {
  name : string;
  monthlyIncome : number
}.
End CoBorrower.

(** The loan types that can be selected, and their configuration
    [LOAN_TYPES]. *)
Inductive SelectableLoanType := select_conventional | select_va.

Definition SelectableLoanType_type (t : SelectableLoanType) : LoanType :=
  match t with
  | select_conventional => conventional
  | select_va => va
  end.

Record LoanConfig := {
  config_name : string;
  config_interestRate : number;
  config_minDownPayment : number;
  config_pmi : number
}.

Definition LOAN_TYPES (t : SelectableLoanType) : LoanConfig :=
  match t with
  | select_conventional =>
    {| config_name := "Conventional (普通贷款)";
       config_interestRate := 0.062;
       config_minDownPayment := 0.035;
       config_pmi := 150 |}
  | select_va =>
    {| config_name := "VA Loan (退伍军人贷款)";
       config_interestRate := 0.055;
       config_minDownPayment := 0;
       config_pmi := 0 |}
  end.

(** [coBorrowers.reduce((sum, b) => sum + b.monthlyIncome, 0)] *)
Definition totalMonthlyIncome (coBorrowers : list CoBorrower.t) : number :=
  fold_left (fun sum b => sum + CoBorrower.monthlyIncome b) coBorrowers 0.

Definition currentLoanConfig (loanType : SelectableLoanType)
  (customInterestRate : option number) : LoanConfig :=
  let base := LOAN_TYPES loanType in
  {| config_name := config_name base;
     config_interestRate :=
       match customInterestRate with
       | Some rate => rate
       | None => config_interestRate base
       end;
     config_minDownPayment := config_minDownPayment base;
     config_pmi := config_pmi base |}.

(** The borrower built from the co-borrowers: the names joined, the
    incomes added, one loan option. *)
Definition currentBorrower (coBorrowers : list CoBorrower.t)
  (loanType : SelectableLoanType) (customInterestRate : option number) : Borrower.t :=
  let config := currentLoanConfig loanType customInterestRate in
  {| Borrower.name := String.concat " + " (map CoBorrower.name coBorrowers);
     Borrower.monthlyIncome := totalMonthlyIncome coBorrowers;
     Borrower.loanOptions :=
       [ {| LoanOption.name := config_name config;
            LoanOption.type := SelectableLoanType_type loanType;
            LoanOption.interestRate := config_interestRate config;
            LoanOption.minDownPayment := config_minDownPayment config;
            LoanOption.pmi := Some (config_pmi config) |} ] |}.

(** [array.filter((_, i) => i !== index)] *)
Fixpoint removeAt (A : Type) (index : nat) (l : list A) {struct l} : list A :=
  match l, index with
  | [], _ => []
  | _ :: l', O => l'
  | x :: l', S index' => x :: removeAt index' l'
  end.

(** [handleRemoveBorrower]: the state after the handler ran. *)
Definition handleRemoveBorrower (coBorrowers : list CoBorrower.t) (index : nat)
  : list CoBorrower.t :=
  if (1 <? List.length coBorrowers)%nat then removeAt index coBorrowers
  else coBorrowers.

Section SingleBorrower.

Variable Math_pow : number -> number -> number.
Variable Number_toString : number -> string.
Variable Number_toFixed0 : number -> string.

(** The scenario built by the single-borrower [allResults]: the labels
    do not name the borrower. *)
Definition singleScenario (property : SDPropertyOption.t) (borrower : Borrower.t)
  (dp rooms sdRentIfNotBuying : number) : InvestmentScenario.t :=
  {| InvestmentScenario.id :=
       PropertyType_toString (SDPropertyOption.type property) ++ "-" ++
       Number_toString (dp * 100) ++ "%-" ++ Number_toString rooms ++ "rooms";
     InvestmentScenario.name :=
       PropertyType_toString (SDPropertyOption.type property) ++ " (" ++
       Number_toFixed0 (dp * 100) ++ "%首付, 出租" ++ Number_toString rooms ++ "间)";
     InvestmentScenario.sellXiamen := true;
     InvestmentScenario.sdProperty := Some property;
     InvestmentScenario.downPaymentPercent := dp;
     InvestmentScenario.borrower := Some borrower;
     InvestmentScenario.roomsToRent := rooms;
     InvestmentScenario.sdRentIfNotBuying := sdRentIfNotBuying |}.

Definition singleCombination (xiamen : XiamenProperty.t) (analysisYears : number)
  (sdRentIfNotBuying : number) (currentBorrower : Borrower.t)
  (property : SDPropertyOption.t) (dp : number) : list CalculationResult.t :=
  let xiamenNetProceeds := calculateXiamenNetProceeds xiamen in
  match getBestLoanOption currentBorrower dp with
  | None => []
  | Some _ =>
    let downPayment := SDPropertyOption.price property * dp in
    let closingCosts := SDPropertyOption.price property * 0.03 in
    if gtb (downPayment + closingCosts) xiamenNetProceeds then []
    else
      map (fun rooms =>
             calculateScenario Math_pow
               (singleScenario property currentBorrower dp rooms sdRentIfNotBuying)
               xiamen analysisYears)
          (roomCounts (SDPropertyOption.rooms property))
  end.

(** [allResults] of the single-borrower variant. *)
Definition allResultsSingle (xiamen : XiamenProperty.t)
  (sdOptions : list SDPropertyOption.t) (currentBorrower : Borrower.t)
  (sdRentIfNotBuying analysisYears : number) : list CalculationResult.t :=
  calculateScenario Math_pow (baseline sdRentIfNotBuying) xiamen analysisYears ::
  flat_map (fun property =>
    flat_map (singleCombination xiamen analysisYears sdRentIfNotBuying
                currentBorrower property)
             dpOptions) sdOptions.

End SingleBorrower.

(** A result without the labels of its scenario. *)
Definition withoutLabels (r : CalculationResult.t) : CalculationResult.t :=
  let s := CalculationResult.scenario r in
  {| CalculationResult.scenario :=
       {| InvestmentScenario.id := "";
          InvestmentScenario.name := "";
          InvestmentScenario.sellXiamen := InvestmentScenario.sellXiamen s;
          InvestmentScenario.sdProperty := InvestmentScenario.sdProperty s;
          InvestmentScenario.downPaymentPercent := InvestmentScenario.downPaymentPercent s;
          InvestmentScenario.borrower := InvestmentScenario.borrower s;
          InvestmentScenario.roomsToRent := InvestmentScenario.roomsToRent s;
          InvestmentScenario.sdRentIfNotBuying := InvestmentScenario.sdRentIfNotBuying s |};
     CalculationResult.initialInvestment := CalculationResult.initialInvestment r;
     CalculationResult.downPayment := CalculationResult.downPayment r;
     CalculationResult.closingCosts := CalculationResult.closingCosts r;
     CalculationResult.remainingCash := CalculationResult.remainingCash r;
     CalculationResult.monthlyMortgage := CalculationResult.monthlyMortgage r;
     CalculationResult.monthlyHOATax := CalculationResult.monthlyHOATax r;
     CalculationResult.monthlyRentalIncome := CalculationResult.monthlyRentalIncome r;
     CalculationResult.monthlyImputedRent := CalculationResult.monthlyImputedRent r;
     CalculationResult.monthlyTotalIncome := CalculationResult.monthlyTotalIncome r;
     CalculationResult.monthlyCashflow := CalculationResult.monthlyCashflow r;
     CalculationResult.monthlyEffectiveCashflow := CalculationResult.monthlyEffectiveCashflow r;
     CalculationResult.annualCashflow := CalculationResult.annualCashflow r;
     CalculationResult.annualEffectiveCashflow := CalculationResult.annualEffectiveCashflow r;
     CalculationResult.cashflowAPY := CalculationResult.cashflowAPY r;
     CalculationResult.effectiveCashflowAPY := CalculationResult.effectiveCashflowAPY r;
     CalculationResult.year5PropertyValue := CalculationResult.year5PropertyValue r;
     CalculationResult.year5Equity := CalculationResult.year5Equity r;
     CalculationResult.year5TotalReturn := CalculationResult.year5TotalReturn r;
     CalculationResult.year5ROI := CalculationResult.year5ROI r;
     CalculationResult.year5AnnualizedROI := CalculationResult.year5AnnualizedROI r;
     CalculationResult.dti := CalculationResult.dti r;
     CalculationResult.mortgageToIncomeRatio := CalculationResult.mortgageToIncomeRatio r |}.

(** The default co-borrowers of the single-borrower variant. *)
Definition defaultCoBorrowers : list CoBorrower.t := [CoBorrower.mk "JJ" 3900].

(** Descending order of a key along a list. *)
Definition descendingBy (A : Type) (key : A -> number) : list A -> Prop :=
  StronglySorted (fun a b => key b <= key a).

(** ** The monthly figures in binary64 arithmetic

    The numbers of the program are IEEE 754 doubles.  The lines of
    [calculateScenario] that compute the monthly cashflows, and
    [calculateMonthlyMortgage], are transcribed here on the primitive
    binary64 numbers, every operator being the rounded one. *)
Module Double.
Import PrimFloat.
Local Open Scope float_scope.
Local Set Warnings "-inexact-float".

Definition calculateMonthlyMortgage (Math_pow : float -> float -> float)
  (principal annualRate years : float) : float :=
  let monthlyRate := annualRate / 12 in
  let numPayments := years * 12 in
  if monthlyRate =? 0 then principal / numPayments
  else
    let payment :=
      principal *
      (monthlyRate * Math_pow (1 + monthlyRate) numPayments) /
      (Math_pow (1 + monthlyRate) numPayments - 1) in
    payment.

Record MonthlyFigures := {
  monthlyRentalIncome : float;
  monthlyImputedRent : float;
  monthlyTotalIncome : float;
  totalMonthlyPayment : float;
  monthlyCashflow : float;
  monthlyEffectiveCashflow : float
}.

(** Lines 148 to 162 of [calculateScenario]: [monthlyMortgage] and [pmi]
    are the values the lines above them have computed, the other
    arguments are read from the property and the scenario. *)
Definition monthlyFigures (monthlyMortgage pmi hoaAndTax monthlyRent roomsToRent
  sdRentIfNotBuying : float) : MonthlyFigures :=
  let monthlyHOATax := hoaAndTax in
  let monthlyRentalIncome := monthlyRent * roomsToRent in
  let monthlyImputedRent := sdRentIfNotBuying in
  let monthlyTotalIncome := monthlyRentalIncome + monthlyImputedRent in
  let totalMonthlyPayment := monthlyMortgage + monthlyHOATax + pmi in
  let monthlyCashflow := monthlyRentalIncome - totalMonthlyPayment in
  let monthlyEffectiveCashflow := monthlyTotalIncome - totalMonthlyPayment in
  {| monthlyRentalIncome := monthlyRentalIncome;
     monthlyImputedRent := monthlyImputedRent;
     monthlyTotalIncome := monthlyTotalIncome;
     totalMonthlyPayment := totalMonthlyPayment;
     monthlyCashflow := monthlyCashflow;
     monthlyEffectiveCashflow := monthlyEffectiveCashflow |}.

(** [monthlyEffectiveCashflow - monthlyCashflow == monthlyImputedRent] *)
Definition differenceIsImputedRent (f : MonthlyFigures) : bool :=
  monthlyEffectiveCashflow f - monthlyCashflow f =? monthlyImputedRent f.

(** The initial selection of the application (the 2B2B with carrying
    cost 850 and rent 1200 per room, two rooms let, no premium) with an
    SD rent of 850.1 instead of 850. *)
Definition selectionAt850_1 (monthlyMortgage : float) : MonthlyFigures :=
  monthlyFigures monthlyMortgage 0 850 1200 2 850.1.

(** The monthly payment the program computes for that selection, a loan
    of 440000 at 5.5% over 30 years. *)
Definition mortgageAt5_5 : float := 2498.2716059268023.

(** The same loan at a rate of zero, where no power is taken. *)
Definition mortgageAtZero (Math_pow : float -> float -> float) : float :=
  calculateMonthlyMortgage Math_pow 440000 0 30.

Definition roundedDifference : float := 850.09999999999991.

End Double.

(** * Properties *)

(** ** The comparison operators *)

Lemma ltb_lt (a b : number) : ltb a b = true <-> a < b.
Proof.
  unfold ltb. rewrite negb_true_iff, <- not_true_iff_false, Qle_bool_iff.
  split; [apply Qnot_le_lt | apply Qlt_not_le].
Qed.

Lemma ltb_ge (a b : number) : ltb a b = false <-> b <= a.
Proof.
  unfold ltb. rewrite negb_false_iff. apply Qle_bool_iff.
Qed.

Lemma gtb_gt (a b : number) : gtb a b = true <-> b < a.
Proof. apply ltb_lt. Qed.

Lemma gtb_le (a b : number) : gtb a b = false <-> a <= b.
Proof. apply ltb_ge. Qed.

Lemma geb_ge (a b : number) : geb a b = true <-> b <= a.
Proof. apply Qle_bool_iff. Qed.

Lemma geb_lt (a b : number) : geb a b = false <-> a < b.
Proof.
  unfold geb. rewrite <- not_true_iff_false, Qle_bool_iff.
  split; [apply Qnot_le_lt | apply Qlt_not_le].
Qed.

Lemma strict_eqb_eq (a b : number) : strict_eqb a b = true <-> a == b.
Proof. apply Qeq_bool_iff. Qed.

Lemma strict_eqb_neq (a b : number) : strict_eqb a b = false <-> ~ a == b.
Proof.
  unfold strict_eqb. rewrite <- not_true_iff_false, Qeq_bool_iff. tauto.
Qed.

(** ** Loan selection *)

Lemma qualifies_spec (dp : number) (opt : LoanOption.t) :
  qualifies dp opt = true <-> LoanOption.minDownPayment opt <= dp.
Proof. apply geb_ge. Qed.

(** The reduction keeps the leftmost option of minimal rate: everything
    before the accumulator has a strictly higher rate, everything after
    it (so far) a rate at least as high. *)
Lemma fold_lowerRate_leftmost :
  forall (rest l1 l2 : list LoanOption.t) (acc : LoanOption.t),
    (forall o, In o l1 -> LoanOption.interestRate acc < LoanOption.interestRate o) ->
    (forall o, In o l2 -> LoanOption.interestRate acc <= LoanOption.interestRate o) ->
    exists l1' l2',
      l1 ++ acc :: l2 ++ rest = l1' ++ fold_left lowerRate rest acc :: l2' /\
      (forall o, In o l1' ->
         LoanOption.interestRate (fold_left lowerRate rest acc) < LoanOption.interestRate o) /\
      (forall o, In o l2' ->
         LoanOption.interestRate (fold_left lowerRate rest acc) <= LoanOption.interestRate o).
Proof.
  induction rest as [|c rest IH]; intros l1 l2 acc H1 H2; simpl.
  - exists l1, l2. rewrite app_nil_r. auto.
  - unfold lowerRate at 2 4 6.
    destruct (ltb (LoanOption.interestRate c) (LoanOption.interestRate acc)) eqn:E.
    + apply ltb_lt in E.
      destruct (IH (l1 ++ acc :: l2) [] c) as (l1' & l2' & Heq & Hl & Hr).
      * intros o Ho. apply in_app_or in Ho. destruct Ho as [Ho | [<- | Ho]].
        -- eapply Qlt_trans; [exact E | auto].
        -- exact E.
        -- eapply Qlt_le_trans; [exact E | auto].
      * intros o [].
      * exists l1', l2'. split; [| auto].
        rewrite <- Heq. simpl. rewrite <- app_assoc. reflexivity.
    + apply ltb_ge in E.
      destruct (IH l1 (l2 ++ [c]) acc) as (l1' & l2' & Heq & Hl & Hr).
      * exact H1.
      * intros o Ho. apply in_app_or in Ho. destruct Ho as [Ho | [<- | []]]; auto.
      * exists l1', l2'. split; [| auto].
        rewrite <- Heq. rewrite <- app_assoc. reflexivity.
Qed.

(** A position in a filtered list is a position in the list. *)
Lemma filter_split (A : Type) (f : A -> bool) :
  forall (l a b : list A) (x : A),
    filter f l = a ++ x :: b ->
    exists a' b', l = a' ++ x :: b' /\ filter f a' = a /\ filter f b' = b.
Proof.
  induction l as [|y l IH]; intros a b x H; simpl in H.
  - destruct a; discriminate.
  - destruct (f y) eqn:E.
    + destruct a as [|a0 a]; simpl in H; injection H as -> H.
      * exists [], l. simpl. auto.
      * destruct (IH _ _ _ H) as (a' & b' & -> & Ha & Hb).
        exists (a0 :: a'), b'. simpl. rewrite E, Ha. auto.
    + destruct (IH _ _ _ H) as (a' & b' & -> & Ha & Hb).
      exists (y :: a'), b'. simpl. rewrite E. auto.
Qed.

Lemma getBestLoanOption_None (borrower : Borrower.t) (dp : number) :
  getBestLoanOption borrower dp = None <->
  forall o, In o (Borrower.loanOptions borrower) -> ~ LoanOption.minDownPayment o <= dp.
Proof.
  unfold getBestLoanOption.
  destruct (filter (qualifies dp) (Borrower.loanOptions borrower)) as [|v vs] eqn:E; simpl.
  - split; [intros _ o Ho Hq | reflexivity].
    apply qualifies_spec in Hq.
    assert (Hin : In o (filter (qualifies dp) (Borrower.loanOptions borrower)))
      by (apply filter_In; auto).
    rewrite E in Hin. exact Hin.
  - split; [discriminate |]. intros H. exfalso.
    assert (Hin : In v (filter (qualifies dp) (Borrower.loanOptions borrower)))
      by (rewrite E; left; reflexivity).
    apply filter_In in Hin. destruct Hin as [Hin Hq].
    apply qualifies_spec in Hq. exact (H v Hin Hq).
Qed.

Lemma getBestLoanOption_Some (borrower : Borrower.t) (dp : number) (opt : LoanOption.t) :
  getBestLoanOption borrower dp = Some opt ->
  exists before after,
    Borrower.loanOptions borrower = before ++ opt :: after /\
    LoanOption.minDownPayment opt <= dp /\
    (forall o, In o before -> LoanOption.minDownPayment o <= dp ->
       LoanOption.interestRate opt < LoanOption.interestRate o) /\
    (forall o, In o after -> LoanOption.minDownPayment o <= dp ->
       LoanOption.interestRate opt <= LoanOption.interestRate o).
Proof.
  unfold getBestLoanOption.
  destruct (filter (qualifies dp) (Borrower.loanOptions borrower)) as [|v vs] eqn:E;
    simpl; [discriminate |].
  intros H. injection H as H.
  destruct (@fold_lowerRate_leftmost vs [] [] v) as (l1 & l2 & Heq & Hl & Hr);
    try (intros o []).
  simpl in Heq. rewrite H in *. rewrite Heq in E.
  destruct (filter_split _ _ _ _ _ E) as (before & after & Hs & Hb & Ha).
  exists before, after. split; [exact Hs |].
  assert (Hin : In opt (filter (qualifies dp) (Borrower.loanOptions borrower))).
  { rewrite E. apply in_or_app. right. left. reflexivity. }
  apply filter_In in Hin. destruct Hin as [_ Hq]. apply qualifies_spec in Hq.
  split; [exact Hq |]. split.
  - intros o Ho Hqo. apply Hl. rewrite <- Hb. apply filter_In.
    split; [exact Ho | apply qualifies_spec; exact Hqo].
  - intros o Ho Hqo. apply Hr. rewrite <- Ha. apply filter_In.
    split; [exact Ho | apply qualifies_spec; exact Hqo].
Qed.

(** C7. Loan selection never returns an option whose minimum down
    payment exceeds the requested fraction; what it returns is an
    option of the borrower with the lowest rate among the qualifying
    ones, the first such in the borrower's list (every qualifying option
    before it has a strictly higher rate); and it returns none exactly
    when no option qualifies. *)
Theorem getBestLoanOption_correct (borrower : Borrower.t) (dp : number) :
  (forall opt, getBestLoanOption borrower dp = Some opt ->
     ~ dp < LoanOption.minDownPayment opt) /\
  (forall opt, getBestLoanOption borrower dp = Some opt ->
     In opt (Borrower.loanOptions borrower) /\
     LoanOption.minDownPayment opt <= dp /\
     (forall o, In o (Borrower.loanOptions borrower) ->
        LoanOption.minDownPayment o <= dp ->
        LoanOption.interestRate opt <= LoanOption.interestRate o) /\
     exists before after,
       Borrower.loanOptions borrower = before ++ opt :: after /\
       forall o, In o before -> LoanOption.minDownPayment o <= dp ->
         LoanOption.interestRate opt < LoanOption.interestRate o) /\
  ((exists o, In o (Borrower.loanOptions borrower) /\ LoanOption.minDownPayment o <= dp) ->
   exists opt, getBestLoanOption borrower dp = Some opt) /\
  (getBestLoanOption borrower dp = None <->
   forall o, In o (Borrower.loanOptions borrower) -> ~ LoanOption.minDownPayment o <= dp).
Proof.
  split; [| split; [| split]].
  - intros opt H. destruct (getBestLoanOption_Some _ _ H) as (b & a & _ & Hq & _).
    apply Qle_not_lt. exact Hq.
  - intros opt H. destruct (getBestLoanOption_Some _ _ H) as (b & a & Hs & Hq & Hb & Ha).
    split; [rewrite Hs; apply in_or_app; right; left; reflexivity |].
    split; [exact Hq |]. split.
    + intros o Ho Hqo. rewrite Hs in Ho. apply in_app_or in Ho.
      destruct Ho as [Ho | [<- | Ho]].
      * apply Qlt_le_weak. auto.
      * apply Qle_refl.
      * auto.
    + exists b, a. auto.
  - intros (o & Ho & Hq).
    destruct (getBestLoanOption borrower dp) as [opt|] eqn:E; [eauto |].
    exfalso. exact (proj1 (getBestLoanOption_None borrower dp) E o Ho Hq).
  - apply getBestLoanOption_None.
Qed.

(** ** Amortization and scenario evaluation *)

Section EngineFacts.

Variable Math_pow : number -> number -> number.


(** The fields of a sell-and-buy result in terms of the financing. *)
Lemma calculateScenario_sellAndBuy (s : InvestmentScenario.t) (property : SDPropertyOption.t)
  (xiamen : XiamenProperty.t) (years : number) :
  InvestmentScenario.sellXiamen s = true ->
  InvestmentScenario.sdProperty s = Some property ->
  calculateScenario Math_pow s xiamen years = sellAndBuy Math_pow s property xiamen years.
Proof.
  intros Hs Hp. unfold calculateScenario. rewrite Hs, Hp. reflexivity.
Qed.

(** C6, in exact arithmetic.  In the sell-and-buy branch the effective
    cashflow is the rental income plus the imputed rent, minus the
    monthly payment (mortgage, carrying cost, premium), and the actual
    cashflow is the rental income minus the same payment; the imputed
    rent is the rent paid in SD when not buying.  Taken without
    rounding, the effective cashflow exceeds the actual one by the
    imputed rent. *)
Theorem effective_minus_actual_is_imputed_rent (s : InvestmentScenario.t)
  (property : SDPropertyOption.t) (xiamen : XiamenProperty.t) (years : number) :
  InvestmentScenario.sellXiamen s = true ->
  InvestmentScenario.sdProperty s = Some property ->
  let r := calculateScenario Math_pow s xiamen years in
  let payment :=
    CalculationResult.monthlyMortgage r + CalculationResult.monthlyHOATax r
    + snd (financing (InvestmentScenario.borrower s)
             (InvestmentScenario.downPaymentPercent s)) in
  CalculationResult.monthlyEffectiveCashflow r - CalculationResult.monthlyCashflow r
  == CalculationResult.monthlyImputedRent r /\
  CalculationResult.monthlyImputedRent r = InvestmentScenario.sdRentIfNotBuying s /\
  CalculationResult.monthlyEffectiveCashflow r
  = CalculationResult.monthlyRentalIncome r + CalculationResult.monthlyImputedRent r
    - payment /\
  CalculationResult.monthlyCashflow r = CalculationResult.monthlyRentalIncome r - payment.
Proof.
  intros Hs Hp r payment. subst r payment.
  rewrite (calculateScenario_sellAndBuy _ _ _ Hs Hp).
  unfold sellAndBuy.
  destruct (financing (InvestmentScenario.borrower s)
              (InvestmentScenario.downPaymentPercent s)) as [rate pmi].
  cbn [CalculationResult.monthlyEffectiveCashflow CalculationResult.monthlyCashflow
       CalculationResult.monthlyImputedRent CalculationResult.monthlyRentalIncome
       CalculationResult.monthlyMortgage CalculationResult.monthlyHOATax snd].
  split; [ring |]. repeat split.
Qed.

(** C9. In the sell-and-buy branch, for a positive horizon, the
    annualized ROI is [((netWorth / netProceeds)^(1/years) - 1) * 100],
    the compounded ratio of the terminal net worth to the net proceeds
    of the sale, where the terminal net worth is the terminal equity
    plus the leftover cash plus the annual effective cashflow times the
    horizon; the total return is that net worth minus the proceeds. *)
Theorem annualizedROI_compounds_netWorth_ratio (s : InvestmentScenario.t)
  (property : SDPropertyOption.t) (xiamen : XiamenProperty.t) (years : number) :
  InvestmentScenario.sellXiamen s = true ->
  InvestmentScenario.sdProperty s = Some property ->
  0 < years ->
  let r := calculateScenario Math_pow s xiamen years in
  let netProceeds := calculateXiamenNetProceeds xiamen in
  let netWorth :=
    CalculationResult.year5Equity r + CalculationResult.remainingCash r +
    CalculationResult.annualEffectiveCashflow r * years in
  CalculationResult.year5AnnualizedROI r
  = (Math_pow (netWorth / netProceeds) (1 / years) - 1) * 100 /\
  CalculationResult.year5TotalReturn r = netWorth - netProceeds /\
  CalculationResult.initialInvestment r = netProceeds.
Proof.
  intros Hs Hp _ r. subst r. rewrite (calculateScenario_sellAndBuy _ _ _ Hs Hp).
  unfold sellAndBuy.
  destruct (financing (InvestmentScenario.borrower s)
              (InvestmentScenario.downPaymentPercent s)) as [rate pmi].
  cbn. repeat split.
Qed.

(** C10. A scenario without a property to buy is evaluated by the
    hold-and-rent branch whatever its [sellXiamen] flag says: no down
    payment, no closing costs, no mortgage, no imputed rent, a DTI of
    zero, and the cashflow is the Xiamen rent in USD minus the SD rent.
    The evaluator is a total function, so this is its value on every
    such scenario. *)
Theorem calculateScenario_without_property (s : InvestmentScenario.t)
  (xiamen : XiamenProperty.t) (years : number) :
  InvestmentScenario.sdProperty s = None ->
  let r := calculateScenario Math_pow s xiamen years in
  r = holdAndRent Math_pow s xiamen years /\
  CalculationResult.scenario r = s /\
  CalculationResult.downPayment r = 0 /\
  CalculationResult.closingCosts r = 0 /\
  CalculationResult.monthlyMortgage r = 0 /\
  CalculationResult.monthlyImputedRent r = 0 /\
  CalculationResult.dti r = 0 /\
  CalculationResult.mortgageToIncomeRatio r = 0 /\
  CalculationResult.monthlyEffectiveCashflow r = CalculationResult.monthlyCashflow r /\
  CalculationResult.monthlyCashflow r
  = XiamenProperty.monthlyRent xiamen / XiamenProperty.exchangeRate xiamen
    - InvestmentScenario.sdRentIfNotBuying s.
Proof.
  intros Hp r. subst r. unfold calculateScenario. rewrite Hp.
  destruct (InvestmentScenario.sellXiamen s); cbn; repeat split.
Qed.

(** The financing falls back to the defaults when no option is found. *)
Lemma financing_fallback (borrower : option Borrower.t) (dp : number) :
  (borrower = None \/
   exists b, borrower = Some b /\ getBestLoanOption b dp = None) ->
  financing borrower dp = (0.065, 0).
Proof.
  intros [-> | (b & -> & H)]; unfold financing; [| rewrite H]; reflexivity.
Qed.

(** With a selected option the rate is the option's, and the premium is
    the option's only below 20% down. *)
Lemma financing_selected (b : Borrower.t) (dp : number) (opt : LoanOption.t) :
  getBestLoanOption b dp = Some opt ->
  fst (financing (Some b) dp) = LoanOption.interestRate opt /\
  (forall p, LoanOption.pmi opt = Some p -> dp < 0.2 ->
     snd (financing (Some b) dp) == p) /\
  (LoanOption.pmi opt = None \/ 0.2 <= dp -> snd (financing (Some b) dp) = 0) /\
  (~ snd (financing (Some b) dp) == 0 ->
     exists p, LoanOption.pmi opt = Some p /\ dp < 0.2 /\
               snd (financing (Some b) dp) = p).
Proof.
  intros H. unfold financing. rewrite H.
  destruct (LoanOption.pmi opt) as [p|] eqn:Ep.
  - destruct (truthy p) eqn:Et; destruct (ltb dp 0.2) eqn:El; cbn;
      (split; [reflexivity |]).
    + apply ltb_lt in El. split; [| split].
      * intros q Hq _. injection Hq as <-. reflexivity.
      * intros [Hn | Hge]; [discriminate |].
        exfalso. exact (Qlt_not_le _ _ El Hge).
      * intros _. exists p. auto.
    + apply ltb_ge in El. split; [| split].
      * intros q _ Hlt. exfalso. exact (Qlt_not_le _ _ Hlt El).
      * reflexivity.
      * intros Hnz. exfalso. apply Hnz. reflexivity.
    + unfold truthy in Et. apply negb_false_iff in Et. apply strict_eqb_eq in Et.
      split; [| split].
      * intros q Hq _. injection Hq as <-. symmetry. exact Et.
      * reflexivity.
      * intros Hnz. exfalso. apply Hnz. reflexivity.
    + apply ltb_ge in El. split; [| split].
      * intros q _ Hlt. exfalso. exact (Qlt_not_le _ _ Hlt El).
      * reflexivity.
      * intros Hnz. exfalso. apply Hnz. reflexivity.
  - cbn. split; [reflexivity |]. split; [intros q Hq; discriminate |].
    split; [reflexivity |]. intros Hnz. exfalso. apply Hnz. reflexivity.
Qed.

(** C5. In the sell-and-buy branch the mortgage, the cashflow and the
    DTI of the result are computed from the financing [(rate, pmi)]:
    when no borrower is attached or no option of the borrower qualifies,
    the rate is 6.5% and the premium zero; when an option is selected,
    the rate is the option's and the premium is the option's when it
    has one and the down payment is below 20%, and zero when it has none
    or the down payment is 20% or more. *)
Theorem sellAndBuy_financing (s : InvestmentScenario.t) (property : SDPropertyOption.t)
  (xiamen : XiamenProperty.t) (years : number) :
  InvestmentScenario.sellXiamen s = true ->
  InvestmentScenario.sdProperty s = Some property ->
  let r := calculateScenario Math_pow s xiamen years in
  let dp := InvestmentScenario.downPaymentPercent s in
  let rate := fst (financing (InvestmentScenario.borrower s) dp) in
  let pmi := snd (financing (InvestmentScenario.borrower s) dp) in
  let loanAmount := SDPropertyOption.price property - SDPropertyOption.price property * dp in
  (CalculationResult.monthlyMortgage r = calculateMonthlyMortgage Math_pow loanAmount rate 30 /\
   CalculationResult.monthlyCashflow r
   = CalculationResult.monthlyRentalIncome r
     - (CalculationResult.monthlyMortgage r + CalculationResult.monthlyHOATax r + pmi)) /\
  ((InvestmentScenario.borrower s = None \/
    exists b, InvestmentScenario.borrower s = Some b /\ getBestLoanOption b dp = None) ->
   rate = 0.065 /\ pmi = 0) /\
  (forall b opt,
     InvestmentScenario.borrower s = Some b ->
     getBestLoanOption b dp = Some opt ->
     rate = LoanOption.interestRate opt /\
     (forall p, LoanOption.pmi opt = Some p -> dp < 0.2 -> pmi == p) /\
     (LoanOption.pmi opt = None \/ 0.2 <= dp -> pmi = 0) /\
     (~ pmi == 0 -> exists p, LoanOption.pmi opt = Some p /\ dp < 0.2 /\ pmi = p)).
Proof.
  intros Hs Hp r dp rate pmi loanAmount. subst r rate pmi loanAmount dp.
  rewrite (calculateScenario_sellAndBuy _ _ _ Hs Hp).
  split; [| split].
  - unfold sellAndBuy.
    destruct (financing (InvestmentScenario.borrower s)
                (InvestmentScenario.downPaymentPercent s)) as [rate pmi].
    cbn. split; reflexivity.
  - intros H. rewrite (financing_fallback _ H). split; reflexivity.
  - intros b opt Hb Hopt. rewrite Hb. apply financing_selected. exact Hopt.
Qed.

End EngineFacts.

(** ** Domination *)

Lemma dominates_dominatesOn (o r : CalculationResult.t) :
  dominates o r
  = dominatesOn CalculationResult.cashflowAPY CalculationResult.year5AnnualizedROI o r.
Proof. reflexivity. Qed.

Lemma dominatesOn_spec (obj1 obj2 : CalculationResult.t -> number)
  (B A : CalculationResult.t) :
  dominatesOn obj1 obj2 B A = true <-> DominationRule obj1 obj2 B A.
Proof.
  unfold dominatesOn, DominationRule.
  rewrite !andb_true_iff, orb_true_iff, !geb_ge, !gtb_gt. tauto.
Qed.

Lemma DominationRule_irrefl (obj1 obj2 : CalculationResult.t -> number)
  (A : CalculationResult.t) : ~ DominationRule obj1 obj2 A A.
Proof.
  intros (_ & _ & [H | H]); exact (Qlt_irrefl _ H).
Qed.

Lemma DominationRule_trans (obj1 obj2 : CalculationResult.t -> number)
  (C B A : CalculationResult.t) :
  DominationRule obj1 obj2 C B -> DominationRule obj1 obj2 B A ->
  DominationRule obj1 obj2 C A.
Proof.
  intros (H1 & H2 & H3) (K1 & K2 & K3). unfold DominationRule.
  split; [eapply Qle_trans; eauto |]. split; [eapply Qle_trans; eauto |].
  destruct K3 as [K3 | K3].
  - left. eapply Qlt_le_trans; eauto.
  - right. eapply Qlt_le_trans; eauto.
Qed.

(** Among finitely many results every result is either undominated or
    dominated by an undominated one. *)
Lemma undominated_above (obj1 obj2 : CalculationResult.t -> number) (h : store) :
  forall (l : list ref) (x : ref),
  exists m,
    (m = x \/ DominationRule obj1 obj2 (h m) (h x)) /\
    (m = x \/ In m l) /\
    (forall o, In o l -> ~ DominationRule obj1 obj2 (h o) (h m)).
Proof.
  induction l as [|a l IH]; intros x.
  - exists x. split; [auto |]. split; [auto |]. intros o [].
  - destruct (IH x) as (m & Hmx & Hin & Hmax).
    destruct (dominatesOn obj1 obj2 (h a) (h m)) eqn:E.
    + apply dominatesOn_spec in E.
      destruct (IH a) as (m' & Hma & Hin' & Hmax').
      assert (Hm'm : DominationRule obj1 obj2 (h m') (h m)).
      { destruct Hma as [-> | Hma]; [exact E |].
        eapply DominationRule_trans; eauto. }
      exists m'. split; [| split].
      * right. destruct Hmx as [-> | Hmx]; [exact Hm'm |].
        eapply DominationRule_trans; eauto.
      * right. destruct Hin' as [-> | Hin']; [left; reflexivity | right; exact Hin'].
      * intros o [<- | Ho]; [| auto].
        destruct Hma as [-> | Hma]; [apply DominationRule_irrefl |].
        intros Hd. eapply DominationRule_irrefl.
        eapply DominationRule_trans; [exact Hd | exact Hma].
    + exists m. split; [exact Hmx |]. split.
      * destruct Hin as [-> | Hin]; [left; reflexivity | right; right; exact Hin].
      * intros o [<- | Ho]; [| auto].
        intros Hd. apply dominatesOn_spec in Hd. congruence.
Qed.

(** The inner loop finds a dominating result exactly when there is one;
    skipping the result itself changes nothing, since no result
    dominates itself. *)
Lemma isDominated_true (h : store) (results : list ref) (r : ref) :
  isDominated h results r = true <->
  exists o, In o results /\
    DominationRule CalculationResult.cashflowAPY CalculationResult.year5AnnualizedROI
      (h o) (h r).
Proof.
  unfold isDominated. rewrite existsb_exists. split.
  - intros (o & Ho & Hd). exists o. split; [exact Ho |].
    destruct (Nat.eqb r o); [discriminate |].
    rewrite dominates_dominatesOn in Hd. apply dominatesOn_spec. exact Hd.
  - intros (o & Ho & Hd). exists o. split; [exact Ho |].
    destruct (Nat.eqb r o) eqn:E.
    + apply Nat.eqb_eq in E. subst o. exfalso. exact (DominationRule_irrefl Hd).
    + rewrite dominates_dominatesOn. apply dominatesOn_spec. exact Hd.
Qed.

Lemma isDominated_false (h : store) (results : list ref) (r : ref) :
  isDominated h results r = false <->
  forall o, In o results ->
    ~ DominationRule CalculationResult.cashflowAPY CalculationResult.year5AnnualizedROI
        (h o) (h r).
Proof.
  rewrite <- not_true_iff_false, isDominated_true. split.
  - intros H o Ho Hd. apply H. eauto.
  - intros H (o & Ho & Hd). exact (H o Ho Hd).
Qed.

(** ** Sorting *)

Lemma insertSorted_perm (A : Type) (compareFn : A -> A -> number) (x : A) :
  forall l, Permutation (insertSorted compareFn x l) (x :: l).
Proof.
  induction l as [|y l IH]; simpl; [reflexivity |].
  destruct (gtb (compareFn x y) 0); [| reflexivity].
  rewrite IH. apply perm_swap.
Qed.

Lemma Array_sort_perm (A : Type) (compareFn : A -> A -> number) :
  forall l, Permutation (Array_sort compareFn l) l.
Proof.
  induction l as [|x l IH]; simpl; [reflexivity |].
  rewrite insertSorted_perm. apply perm_skip. exact IH.
Qed.

(** Ascending order of a key. *)
Definition ascendingBy (A : Type) (key : A -> number) : list A -> Prop :=
  StronglySorted (fun a b => key a <= key b).

Lemma insertSorted_ascending (A : Type) (key : A -> number) (x : A) :
  forall l, ascendingBy key l ->
            ascendingBy key (insertSorted (fun a b => key a - key b) x l).
Proof.
  unfold ascendingBy.
  induction l as [|y l IH]; intros Hs; simpl.
  - constructor; constructor.
  - apply StronglySorted_inv in Hs. destruct Hs as [Hs Hy].
    destruct (gtb (key x - key y) 0) eqn:E.
    + apply gtb_gt in E. constructor; [apply IH; exact Hs |].
      eapply Permutation_Forall; [symmetry; apply insertSorted_perm |].
      constructor; [| exact Hy]. lra.
    + apply gtb_le in E. constructor; [constructor; assumption |].
      constructor; [lra |].
      eapply Forall_impl; [| exact Hy]. intros z Hz. simpl in Hz. lra.
Qed.

Lemma Array_sort_ascending (A : Type) (key : A -> number) :
  forall l, ascendingBy key (Array_sort (fun a b => key a - key b) l).
Proof.
  induction l as [|x l IH]; simpl; [constructor |].
  apply insertSorted_ascending. exact IH.
Qed.

(** ** The Pareto frontier *)

Lemma findParetoFrontier_perm (h : store) (results : list ref) :
  Permutation (findParetoFrontier h results)
              (filter (fun r => negb (isDominated h results r)) results).
Proof. apply Array_sort_perm. Qed.

Lemma findParetoFrontier_In (h : store) (results : list ref) (r : ref) :
  In r (findParetoFrontier h results) <->
  In r results /\ isDominated h results r = false.
Proof.
  rewrite <- negb_true_iff, <- (filter_In (fun r => negb (isDominated h results r))).
  split; apply Permutation_in;
    [| symmetry]; apply findParetoFrontier_perm.
Qed.

(** C2. Soundness and completeness of the frontier for the domination
    rule on the two objectives of [findParetoFrontier] (cashflow APY and
    annualized ROI): a returned result belongs to the input and no
    result of the input dominates it; a result of the input that is not
    returned is dominated by a returned one. *)
Theorem findParetoFrontier_sound_complete (h : store) (results : list ref) :
  (forall r, In r (findParetoFrontier h results) ->
     In r results /\
     forall o, In o results ->
       ~ DominationRule CalculationResult.cashflowAPY
           CalculationResult.year5AnnualizedROI (h o) (h r)) /\
  (forall r, In r results -> ~ In r (findParetoFrontier h results) ->
     exists f, In f (findParetoFrontier h results) /\
       DominationRule CalculationResult.cashflowAPY
         CalculationResult.year5AnnualizedROI (h f) (h r)).
Proof.
  split.
  - intros r Hr. apply findParetoFrontier_In in Hr. destruct Hr as [Hin Hnd].
    split; [exact Hin |]. apply isDominated_false. exact Hnd.
  - intros r Hin Hout.
    destruct (undominated_above CalculationResult.cashflowAPY
                CalculationResult.year5AnnualizedROI h results r)
      as (m & Hmr & Hm & Hmax).
    assert (Hmin : In m results) by (destruct Hm as [-> | Hm]; assumption).
    assert (Hf : In m (findParetoFrontier h results)).
    { apply findParetoFrontier_In. split; [exact Hmin |].
      apply isDominated_false. exact Hmax. }
    destruct Hmr as [-> | Hmr]; [contradiction |].
    exists m. split; assumption.
Qed.

Lemma filter_true (A : Type) (l : list A) : filter (fun _ => true) l = l.
Proof.
  induction l as [|x l IH]; simpl; [reflexivity | rewrite IH; reflexivity].
Qed.

Lemma paretoData_In (rs : list CalculationResult.t) (pt : ParetoPoint) :
  In pt (paretoData rs) <->
  exists r, In r rs /\
    InvestmentScenario.sellXiamen (CalculationResult.scenario r) = true /\
    CalculationResult.dti r < 43 /\
    pt = {| point_cashflowAPY := CalculationResult.effectiveCashflowAPY r;
            point_year5ROI := CalculationResult.year5AnnualizedROI r;
            point_name := InvestmentScenario.name (CalculationResult.scenario r);
            point_id := InvestmentScenario.id (CalculationResult.scenario r) |}.
Proof.
  unfold paretoData. rewrite in_map_iff. split.
  - intros (r & <- & Hr). apply filter_In in Hr. destruct Hr as [Hr Hc].
    apply andb_true_iff in Hc. destruct Hc as [Hs Hd]. apply ltb_lt in Hd.
    exists r. auto.
  - intros (r & Hr & Hs & Hd & ->). exists r. split; [reflexivity |].
    apply filter_In. split; [exact Hr |].
    apply andb_true_iff. split; [exact Hs | apply ltb_lt; exact Hd].
Qed.

(** What [findParetoFrontier] computes: the selector of section 4.6
    taken on the objectives actual cashflow APY and annualized ROI with
    no feasibility restriction.  It returns the results of the whole
    input that no result of the input dominates, ordered ascending by
    the actual cashflow APY.  [paretoData] keeps every sell-and-buy
    result with a DTI below 43 and plots its effective APY against its
    annualized ROI. *)
Theorem findParetoFrontier_unrestricted (h : store) (results : list ref) :
  findParetoFrontier h results
  = spec_paretoSelector CalculationResult.cashflowAPY
      CalculationResult.year5AnnualizedROI (fun _ => true) h results /\
  ascendingBy (fun r => CalculationResult.cashflowAPY (h r))
    (findParetoFrontier h results) /\
  (forall r, In r (findParetoFrontier h results) <->
     In r results /\
     forall o, In o results ->
       ~ DominationRule CalculationResult.cashflowAPY
           CalculationResult.year5AnnualizedROI (h o) (h r)) /\
  (forall (rs : list CalculationResult.t) (pt : ParetoPoint),
     In pt (paretoData rs) <->
     exists r, In r rs /\
       InvestmentScenario.sellXiamen (CalculationResult.scenario r) = true /\
       CalculationResult.dti r < 43 /\
       pt = {| point_cashflowAPY := CalculationResult.effectiveCashflowAPY r;
               point_year5ROI := CalculationResult.year5AnnualizedROI r;
               point_name := InvestmentScenario.name (CalculationResult.scenario r);
               point_id := InvestmentScenario.id (CalculationResult.scenario r) |}).
Proof.
  split; [| split; [| split]].
  - unfold findParetoFrontier, spec_paretoSelector. rewrite filter_true.
    f_equal. apply filter_ext. intros r. f_equal.
    destruct (isDominated h results r) eqn:E; symmetry.
    + apply isDominated_true in E. destruct E as (o & Ho & Hd).
      apply existsb_exists. exists o. split; [exact Ho |].
      apply dominatesOn_spec. exact Hd.
    + apply not_true_iff_false. intros H. apply existsb_exists in H.
      destruct H as (o & Ho & Hd). apply dominatesOn_spec in Hd.
      exact (proj1 (isDominated_false h results r) E o Ho Hd).
  - apply (Array_sort_ascending (fun r => CalculationResult.cashflowAPY (h r))).
  - intros r. rewrite findParetoFrontier_In, isDominated_false. reflexivity.
  - apply paretoData_In.
Qed.

(** C1 on [findParetoFrontier].  The selector of the claim maximizes
    the effective cashflow APY and the annualized ROI among the results
    with a DTI below 43%, as [paretoData] and the problem definition
    shown by the application do.  [findParetoFrontier] does neither: a
    single result with a DTI of 50% is returned, where the selector
    returns nothing; and of two feasible results with equal ROI it
    returns the one with the higher actual APY, where the selector
    returns the one with the higher effective APY. *)
Lemma findParetoFrontier_not_effective_feasible_selector :
  findParetoFrontier storeOverDTI [0%nat] = [0%nat] /\
  spec_paretoSelector CalculationResult.effectiveCashflowAPY
    CalculationResult.year5AnnualizedROI dtiBelow43 storeOverDTI [0%nat] = [] /\
  findParetoFrontier storeTwo [0%nat; 1%nat] = [1%nat] /\
  spec_paretoSelector CalculationResult.effectiveCashflowAPY
    CalculationResult.year5AnnualizedROI dtiBelow43 storeTwo [0%nat; 1%nat] = [0%nat] /\
  ~ (forall h results,
       findParetoFrontier h results
       = spec_paretoSelector CalculationResult.effectiveCashflowAPY
           CalculationResult.year5AnnualizedROI dtiBelow43 h results).
Proof.
  repeat split; try (vm_compute; reflexivity).
  intros H. specialize (H storeOverDTI [0%nat]). vm_compute in H. discriminate H.
Qed.

(** ** Scenario enumeration *)

Lemma floor_ge (k : Z) (m : number) : (k <= Qfloor m)%Z <-> inject_Z k <= m.
Proof.
  split; intros H.
  - eapply Qle_trans; [| apply Qfloor_le]. rewrite <- Zle_Qle. exact H.
  - rewrite <- (Qfloor_Z k). apply Qfloor_resp_le. exact H.
Qed.

(** The room loop visits exactly the integers from 0 to [maxRooms]. *)
Lemma roomCounts_In (maxRooms rooms : number) :
  In rooms (roomCounts maxRooms) <->
  exists k : Z, rooms = inject_Z k /\ (0 <= k)%Z /\ inject_Z k <= maxRooms.
Proof.
  unfold roomCounts. rewrite in_map_iff. split.
  - intros (n & <- & Hn). apply in_seq in Hn.
    exists (Z.of_nat n). split; [reflexivity |]. split; [lia |].
    apply floor_ge. lia.
  - intros (k & -> & Hk & Hle). apply floor_ge in Hle.
    exists (Z.to_nat k). split; [rewrite Z2Nat.id; [reflexivity | exact Hk] |].
    apply in_seq. lia.
Qed.

Lemma roomCounts_integral (n : nat) :
  roomCounts (inject_Z (Z.of_nat n))
  = map (fun k => inject_Z (Z.of_nat k)) (seq 0 (S n)).
Proof.
  unfold roomCounts. rewrite Qfloor_Z. f_equal. f_equal. lia.
Qed.

Section EnumerationFacts.

Variable Math_pow : number -> number -> number.
Variable Number_toString : number -> string.
Variable Number_toFixed0 : number -> string.

Lemma calculateScenario_scenario (s : InvestmentScenario.t) (xiamen : XiamenProperty.t)
  (years : number) :
  CalculationResult.scenario (calculateScenario Math_pow s xiamen years) = s.
Proof.
  unfold calculateScenario, sellAndBuy.
  destruct (InvestmentScenario.sellXiamen s); [| reflexivity].
  destruct (InvestmentScenario.sdProperty s) as [property|]; [| reflexivity].
  destruct (financing (InvestmentScenario.borrower s)
              (InvestmentScenario.downPaymentPercent s)).
  reflexivity.
Qed.

Lemma generatedScenario_combination (property : SDPropertyOption.t) (borrower : Borrower.t)
  (dp rooms rent : number) :
  combination (generatedScenario Number_toString property borrower dp rooms rent)
    property borrower dp rooms rent.
Proof. repeat split. Qed.

Lemma appScenario_combination (property : SDPropertyOption.t) (borrower : Borrower.t)
  (dp rooms rent : number) :
  combination (appScenario Number_toString Number_toFixed0 property borrower dp rooms rent)
    property borrower dp rooms rent.
Proof. repeat split. Qed.

(** Membership in the scenarios that [generateScenarios] pushes after
    the baseline. *)
Lemma generateScenarios_tl_In (xiamen : XiamenProperty.t)
  (sdOptions : list SDPropertyOption.t) (borrowers : list Borrower.t) (rent : number)
  (s : InvestmentScenario.t) :
  In s (tl (generateScenarios Number_toString xiamen sdOptions borrowers rent)) <->
  exists property borrower dp rooms,
    In property sdOptions /\ In borrower borrowers /\ In dp downPaymentOptions /\
    getBestLoanOption borrower dp <> None /\
    In rooms (roomCounts (SDPropertyOption.rooms property)) /\
    s = generatedScenario Number_toString property borrower dp rooms rent.
Proof.
  unfold generateScenarios. cbn [tl]. split.
  - intros H.
    apply in_flat_map in H. destruct H as (property & Hp & H).
    apply in_flat_map in H. destruct H as (borrower & Hb & H).
    apply in_flat_map in H. destruct H as (dp & Hdp & H).
    destruct (getBestLoanOption borrower dp) as [opt|] eqn:E; [| destruct H].
    apply in_map_iff in H. destruct H as (rooms & <- & Hr).
    exists property, borrower, dp, rooms. rewrite E.
    repeat split; try assumption. discriminate.
  - intros (property & borrower & dp & rooms & Hp & Hb & Hdp & Hq & Hr & ->).
    apply in_flat_map. exists property. split; [exact Hp |].
    apply in_flat_map. exists borrower. split; [exact Hb |].
    apply in_flat_map. exists dp. split; [exact Hdp |].
    destruct (getBestLoanOption borrower dp) as [opt|]; [| congruence].
    apply in_map_iff. exists rooms. auto.
Qed.

Lemma generateScenarios_cons (xiamen : XiamenProperty.t)
  (sdOptions : list SDPropertyOption.t) (borrowers : list Borrower.t) (rent : number) :
  generateScenarios Number_toString xiamen sdOptions borrowers rent
  = baseline rent :: tl (generateScenarios Number_toString xiamen sdOptions borrowers rent).
Proof. reflexivity. Qed.

(** Membership in one combination of [allResults]. *)
Lemma appCombination_In (xiamen : XiamenProperty.t) (years rent : number)
  (property : SDPropertyOption.t) (borrower : Borrower.t) (dp : number)
  (r : CalculationResult.t) :
  In r (appCombination Math_pow Number_toString Number_toFixed0
          xiamen years rent property borrower dp) <->
  loanQualifiesAndAffordable xiamen property borrower dp /\
  exists rooms,
    In rooms (roomCounts (SDPropertyOption.rooms property)) /\
    r = calculateScenario Math_pow
          (appScenario Number_toString Number_toFixed0 property borrower dp rooms rent)
          xiamen years.
Proof.
  unfold appCombination, loanQualifiesAndAffordable, loanQualifies, affordable.
  destruct (getBestLoanOption borrower dp) as [opt|].
  - destruct (gtb (SDPropertyOption.price property * dp +
                   SDPropertyOption.price property * 0.03)
                  (calculateXiamenNetProceeds xiamen)) eqn:E.
    + apply gtb_gt in E. split; [intros [] |].
      intros [[_ Ha] _]. exact (Qlt_not_le _ _ E Ha).
    + apply gtb_le in E. rewrite in_map_iff. split.
      * intros (rooms & <- & Hr). split; [split; [discriminate | exact E] |].
        exists rooms. auto.
      * intros (_ & rooms & Hr & ->). exists rooms. auto.
  - split; [intros [] |]. intros [[Hq _] _]. congruence.
Qed.

(** Membership in the results that [allResults] pushes after the
    baseline. *)
Lemma allResults_tl_In (xiamen : XiamenProperty.t) (sdOptions : list SDPropertyOption.t)
  (borrowers : list Borrower.t) (rent years : number) (r : CalculationResult.t) :
  In r (tl (allResults Math_pow Number_toString Number_toFixed0
              xiamen sdOptions borrowers rent years)) <->
  exists property borrower dp rooms,
    In property sdOptions /\ In borrower borrowers /\ In dp dpOptions /\
    loanQualifiesAndAffordable xiamen property borrower dp /\
    In rooms (roomCounts (SDPropertyOption.rooms property)) /\
    r = calculateScenario Math_pow
          (appScenario Number_toString Number_toFixed0 property borrower dp rooms rent)
          xiamen years.
Proof.
  unfold allResults. cbn [tl]. split.
  - intros H.
    apply in_flat_map in H. destruct H as (property & Hp & H).
    apply in_flat_map in H. destruct H as (borrower & Hb & H).
    apply in_flat_map in H. destruct H as (dp & Hdp & H).
    apply appCombination_In in H. destruct H as (Hk & rooms & Hr & ->).
    exists property, borrower, dp, rooms. auto 6.
  - intros (property & borrower & dp & rooms & Hp & Hb & Hdp & Hk & Hr & ->).
    apply in_flat_map. exists property. split; [exact Hp |].
    apply in_flat_map. exists borrower. split; [exact Hb |].
    apply in_flat_map. exists dp. split; [exact Hdp |].
    apply appCombination_In. split; [exact Hk |]. exists rooms. auto.
Qed.

Lemma allResults_cons (xiamen : XiamenProperty.t) (sdOptions : list SDPropertyOption.t)
  (borrowers : list Borrower.t) (rent years : number) :
  allResults Math_pow Number_toString Number_toFixed0 xiamen sdOptions borrowers rent years
  = calculateScenario Math_pow (baseline rent) xiamen years ::
    tl (allResults Math_pow Number_toString Number_toFixed0
          xiamen sdOptions borrowers rent years).
Proof. reflexivity. Qed.

(** The scenarios evaluated by [allResults]: the baseline first, then
    scenarios of kept combinations. *)
Lemma allResults_scenarios (xiamen : XiamenProperty.t) (sdOptions : list SDPropertyOption.t)
  (borrowers : list Borrower.t) (rent years : number) :
  map (@CalculationResult.scenario)
    (allResults Math_pow Number_toString Number_toFixed0 xiamen sdOptions borrowers rent years)
  = baseline rent ::
    map (@CalculationResult.scenario)
      (tl (allResults Math_pow Number_toString Number_toFixed0
             xiamen sdOptions borrowers rent years)).
Proof.
  rewrite allResults_cons at 1. cbn [map]. rewrite calculateScenario_scenario. reflexivity.
Qed.

Lemma allResults_tl_scenario_In (xiamen : XiamenProperty.t)
  (sdOptions : list SDPropertyOption.t) (borrowers : list Borrower.t)
  (rent years : number) (s : InvestmentScenario.t) :
  In s (map (@CalculationResult.scenario)
          (tl (allResults Math_pow Number_toString Number_toFixed0
                 xiamen sdOptions borrowers rent years))) <->
  exists property borrower dp rooms,
    In property sdOptions /\ In borrower borrowers /\ In dp dpOptions /\
    loanQualifiesAndAffordable xiamen property borrower dp /\
    In rooms (roomCounts (SDPropertyOption.rooms property)) /\
    s = appScenario Number_toString Number_toFixed0 property borrower dp rooms rent.
Proof.
  rewrite in_map_iff. split.
  - intros (r & <- & Hr). apply allResults_tl_In in Hr.
    destruct Hr as (property & borrower & dp & rooms & Hp & Hb & Hdp & Hk & Hr & ->).
    exists property, borrower, dp, rooms. rewrite calculateScenario_scenario. auto 6.
  - intros (property & borrower & dp & rooms & Hp & Hb & Hdp & Hk & Hr & ->).
    eexists. split; [| apply allResults_tl_In; exists property, borrower, dp, rooms;
                       repeat split; try eassumption; apply Hk].
    apply calculateScenario_scenario.
Qed.

(** The costs recorded by a sell-and-buy evaluation. *)
Lemma sellAndBuy_costs (s : InvestmentScenario.t) (property : SDPropertyOption.t)
  (xiamen : XiamenProperty.t) (years : number) :
  InvestmentScenario.sellXiamen s = true ->
  InvestmentScenario.sdProperty s = Some property ->
  let r := calculateScenario Math_pow s xiamen years in
  CalculationResult.downPayment r
  = SDPropertyOption.price property * InvestmentScenario.downPaymentPercent s /\
  CalculationResult.closingCosts r = SDPropertyOption.price property * 0.03 /\
  CalculationResult.initialInvestment r = calculateXiamenNetProceeds xiamen.
Proof.
  intros Hs Hp r. subst r. unfold calculateScenario, sellAndBuy. rewrite Hs, Hp.
  destruct (financing (InvestmentScenario.borrower s)
              (InvestmentScenario.downPaymentPercent s)).
  cbn. repeat split.
Qed.

(** Every sell-and-buy result of [allResults] passed the affordability
    gate: its down payment plus its closing costs do not exceed the net
    proceeds of the sale. *)
Lemma allResults_affordable (xiamen : XiamenProperty.t)
  (sdOptions : list SDPropertyOption.t) (borrowers : list Borrower.t)
  (rent years : number) (r : CalculationResult.t) :
  In r (allResults Math_pow Number_toString Number_toFixed0
          xiamen sdOptions borrowers rent years) ->
  InvestmentScenario.sellXiamen (CalculationResult.scenario r) = true ->
  CalculationResult.downPayment r + CalculationResult.closingCosts r
  <= calculateXiamenNetProceeds xiamen.
Proof.
  intros Hin Hsell. rewrite allResults_cons in Hin. destruct Hin as [<- | Hin].
  - rewrite calculateScenario_scenario in Hsell. discriminate Hsell.
  - apply allResults_tl_In in Hin.
    destruct Hin as (property & borrower & dp & rooms & _ & _ & _ & [_ Ha] & _ & ->).
    destruct (@sellAndBuy_costs
                (appScenario Number_toString Number_toFixed0 property borrower dp rooms rent)
                property xiamen years eq_refl eq_refl) as (Hd & Hc & _).
    rewrite Hd, Hc. exact Ha.
Qed.

Lemma kept_room (property : SDPropertyOption.t) (k : Z) :
  (0 <= k)%Z -> inject_Z k <= SDPropertyOption.rooms property ->
  In (inject_Z k) (roomCounts (SDPropertyOption.rooms property)).
Proof.
  intros Hk Hle. apply roomCounts_In. exists k. auto.
Qed.

(** The two enumerations characterised.  [allResults] of [App.tsx]
    evaluates the baseline exactly once, and the combinations of
    candidate property, borrower, down-payment fraction of the grid
    0, 5, 10, 15, 20, 25, 30, 35, 40, 50, 60, 70, 80 percent and integer
    room count from 0 to the candidate's room count, a combination being
    kept when a loan option of the borrower qualifies and the down
    payment plus the closing costs do not exceed the net proceeds.
    [generateScenarios] of [calculator.ts] emits one baseline too; its
    sell-and-buy scenarios are combinations over the grid 20, 25, 30,
    35, 50 percent with a qualifying loan option, and every such
    combination that is affordable is among them. *)
Theorem enumeration_of_scenarios (xiamen : XiamenProperty.t)
  (sdOptions : list SDPropertyOption.t) (borrowers : list Borrower.t)
  (rent years : number) :
  let evaluated :=
    map (@CalculationResult.scenario)
      (allResults Math_pow Number_toString Number_toFixed0
         xiamen sdOptions borrowers rent years) in
  let generated := generateScenarios Number_toString xiamen sdOptions borrowers rent in
  dpOptions = [0; 0.05; 0.1; 0.15; 0.2; 0.25; 0.3; 0.35; 0.4; 0.5; 0.6; 0.7; 0.8] /\
  emitsEvery (loanQualifiesAndAffordable xiamen) dpOptions sdOptions borrowers rent
    evaluated /\
  emitsOnly (loanQualifiesAndAffordable xiamen) dpOptions sdOptions borrowers rent
    evaluated /\
  oneBaseline rent evaluated /\
  downPaymentOptions = [0.2; 0.25; 0.3; 0.35; 0.5] /\
  emitsEvery (loanQualifiesAndAffordable xiamen) downPaymentOptions sdOptions borrowers
    rent generated /\
  emitsOnly loanQualifies downPaymentOptions sdOptions borrowers rent generated /\
  oneBaseline rent generated.
Proof.
  intros evaluated generated. subst evaluated generated.
  split; [reflexivity |]. split; [| split; [| split; [| split; [| split; [| split]]]]].
  - intros property borrower dp k (Hp & Hb & Hdp & Hk & Hle) Hkept.
    exists (appScenario Number_toString Number_toFixed0 property borrower dp
              (inject_Z k) rent).
    split; [| apply appScenario_combination].
    rewrite allResults_scenarios. right. apply allResults_tl_scenario_In.
    exists property, borrower, dp, (inject_Z k).
    repeat split; try assumption; try apply Hkept. apply kept_room; assumption.
  - intros s Hin Hsell. rewrite allResults_scenarios in Hin.
    destruct Hin as [<- | Hin]; [discriminate Hsell |].
    apply allResults_tl_scenario_In in Hin.
    destruct Hin as (property & borrower & dp & rooms & Hp & Hb & Hdp & Hkept & Hr & ->).
    apply roomCounts_In in Hr. destruct Hr as (k & -> & Hk & Hle).
    exists property, borrower, dp, k.
    split; [repeat split; assumption |]. split; [exact Hkept |].
    apply appScenario_combination.
  - exists [], (map (@CalculationResult.scenario)
                  (tl (allResults Math_pow Number_toString Number_toFixed0
                         xiamen sdOptions borrowers rent years))).
    split; [apply allResults_scenarios |].
    intros s Hin. cbn [app] in Hin. apply allResults_tl_scenario_In in Hin.
    destruct Hin as (property & borrower & dp & rooms & _ & _ & _ & _ & _ & ->).
    reflexivity.
  - reflexivity.
  - intros property borrower dp k (Hp & Hb & Hdp & Hk & Hle) [Hq _].
    exists (generatedScenario Number_toString property borrower dp (inject_Z k) rent).
    split; [| apply generatedScenario_combination].
    rewrite generateScenarios_cons. right. apply generateScenarios_tl_In.
    exists property, borrower, dp, (inject_Z k).
    repeat split; try assumption. apply kept_room; assumption.
  - intros s Hin Hsell. rewrite generateScenarios_cons in Hin.
    destruct Hin as [<- | Hin]; [discriminate Hsell |].
    apply generateScenarios_tl_In in Hin.
    destruct Hin as (property & borrower & dp & rooms & Hp & Hb & Hdp & Hq & Hr & ->).
    apply roomCounts_In in Hr. destruct Hr as (k & -> & Hk & Hle).
    exists property, borrower, dp, k.
    split; [repeat split; assumption |]. split; [exact Hq |].
    apply generatedScenario_combination.
  - exists [], (tl (generateScenarios Number_toString xiamen sdOptions borrowers rent)).
    split; [apply generateScenarios_cons |].
    intros s Hin. cbn [app] in Hin. apply generateScenarios_tl_In in Hin.
    destruct Hin as (property & borrower & dp & rooms & _ & _ & _ & _ & _ & ->).
    reflexivity.
Qed.

End EnumerationFacts.

(** ** The engine on the default parameters *)

Lemma getBestLoanOption_xiaoyu : getBestLoanOption xiaoyu 0.2 = Some vaLoan.
Proof. reflexivity. Qed.

Lemma getBestLoanOption_correct_witness :
  In vaLoan (Borrower.loanOptions xiaoyu) /\
  LoanOption.minDownPayment vaLoan <= 0.2 /\
  (forall o, In o (Borrower.loanOptions xiaoyu) ->
     LoanOption.minDownPayment o <= 0.2 ->
     LoanOption.interestRate vaLoan <= LoanOption.interestRate o).
Proof.
  destruct (proj1 (proj2 (getBestLoanOption_correct xiaoyu 0.2)) vaLoan eq_refl)
    as (Hin & Hq & Hmin & _).
  auto.
Defined.


Lemma effective_minus_actual_is_imputed_rent_witness :
  InvestmentScenario.sellXiamen currentScenario = true /\
  InvestmentScenario.sdProperty currentScenario = Some sd2B2B /\
  let r := calculateScenario pow_integral currentScenario defaultXiamen 5 in
  CalculationResult.monthlyEffectiveCashflow r - CalculationResult.monthlyCashflow r
  == CalculationResult.monthlyImputedRent r /\
  CalculationResult.monthlyImputedRent r = 850.
Proof.
  split; [reflexivity |]. split; [reflexivity |].
  destruct (@effective_minus_actual_is_imputed_rent pow_integral currentScenario sd2B2B
              defaultXiamen 5 eq_refl eq_refl) as (H1 & H2 & _).
  split; [exact H1 | exact H2].
Defined.

Lemma annualizedROI_compounds_netWorth_ratio_witness :
  InvestmentScenario.sellXiamen currentScenario = true /\
  InvestmentScenario.sdProperty currentScenario = Some sd2B2B /\
  0 < 1 /\
  let r := calculateScenario pow_integral currentScenario defaultXiamen 1 in
  let netProceeds := calculateXiamenNetProceeds defaultXiamen in
  let netWorth :=
    CalculationResult.year5Equity r + CalculationResult.remainingCash r +
    CalculationResult.annualEffectiveCashflow r * 1 in
  CalculationResult.year5AnnualizedROI r
  = (pow_integral (netWorth / netProceeds) (1 / 1) - 1) * 100 /\
  CalculationResult.year5TotalReturn r = netWorth - netProceeds /\
  CalculationResult.initialInvestment r = netProceeds.
Proof.
  split; [reflexivity |]. split; [reflexivity |]. split; [reflexivity |].
  exact (@annualizedROI_compounds_netWorth_ratio pow_integral currentScenario sd2B2B
           defaultXiamen 1 eq_refl eq_refl eq_refl).
Defined.

Lemma calculateScenario_without_property_witness :
  InvestmentScenario.sdProperty sellWithoutProperty = None /\
  InvestmentScenario.sellXiamen sellWithoutProperty = true /\
  let r := calculateScenario pow_integral sellWithoutProperty defaultXiamen 5 in
  r = holdAndRent pow_integral sellWithoutProperty defaultXiamen 5 /\
  CalculationResult.downPayment r = 0 /\
  CalculationResult.monthlyMortgage r = 0 /\
  CalculationResult.monthlyImputedRent r = 0 /\
  CalculationResult.dti r = 0.
Proof.
  split; [reflexivity |]. split; [reflexivity |].
  destruct (@calculateScenario_without_property pow_integral sellWithoutProperty
              defaultXiamen 5 eq_refl)
    as (H1 & _ & H2 & _ & H3 & H4 & H5 & _).
  cbv zeta. auto.
Defined.

Lemma sellAndBuy_financing_witness :
  InvestmentScenario.sellXiamen currentScenario = true /\
  InvestmentScenario.sdProperty currentScenario = Some sd2B2B /\
  fst (financing (Some xiaoyu) 0.2) = 0.055 /\
  snd (financing (Some xiaoyu) 0.2) = 0.
Proof.
  split; [reflexivity |]. split; [reflexivity |].
  destruct (@sellAndBuy_financing pow_integral currentScenario sd2B2B defaultXiamen 5
              eq_refl eq_refl) as (_ & _ & Hsel).
  destruct (Hsel xiaoyu vaLoan eq_refl eq_refl) as (Hrate & _ & Hzero & _).
  split; [exact Hrate |]. apply Hzero. right. discriminate.
Defined.

(** ** The enumerations on the default parameters *)

Lemma xiaoyu_qualifies (property : SDPropertyOption.t) (dp : number) :
  0 <= dp -> loanQualifies property xiaoyu dp.
Proof.
  intros Hdp H.
  apply (proj1 (getBestLoanOption_None xiaoyu dp) H vaLoan);
    [left; reflexivity | exact Hdp].
Qed.

(** C3 on [generateScenarios].  With the default parameters of the
    application, [generateScenarios] emits the 3B2B at 50% down for the
    third borrower: a down payment of 375000 and closing costs of 22500
    against net proceeds of about 371279.  [allResults] skips this
    combination ([allResults_affordable]). *)
Theorem generateScenarios_emits_unaffordable :
  let s := generatedScenario toString_integral sd3B2B xiaoyu 0.5 0 850 in
  let r := calculateScenario pow_integral s defaultXiamen 5 in
  In s (generateScenarios toString_integral defaultXiamen defaultSDOptions
          defaultBorrowers 850) /\
  InvestmentScenario.sellXiamen s = true /\
  CalculationResult.downPayment r == 375000 /\
  CalculationResult.closingCosts r == 22500 /\
  calculateXiamenNetProceeds defaultXiamen
  < CalculationResult.downPayment r + CalculationResult.closingCosts r.
Proof.
  intros s r.
  destruct (@sellAndBuy_costs pow_integral s sd3B2B defaultXiamen 5 eq_refl eq_refl)
    as (Hd & Hc & _).
  fold r in Hd, Hc. rewrite Hd, Hc.
  split; [| split; [reflexivity | split; [| split]]].
  - rewrite generateScenarios_cons. right. apply generateScenarios_tl_In.
    exists sd3B2B, xiaoyu, 0.5, 0.
    split; [right; right; left; reflexivity |].
    split; [right; right; left; reflexivity |].
    split; [do 4 right; left; reflexivity |].
    split; [apply (xiaoyu_qualifies sd3B2B); discriminate |].
    split; [| reflexivity].
    apply roomCounts_In. exists 0%Z.
    split; [reflexivity |]. split; [lia | discriminate].
  - vm_compute. reflexivity.
  - vm_compute. reflexivity.
  - vm_compute. reflexivity.
Qed.

(** C4 on [generateScenarios].  With the default parameters of the
    application the 1B1B, the third borrower, 0% down and no room let is
    a combination of the product over the grid 0, 5, ..., 80 percent;
    the borrower's VA loan qualifies for it and it is affordable.
    [allResults] evaluates it.  [generateScenarios] does not emit it:
    the fractions of its sell-and-buy scenarios are 20, 25, 30, 35 and
    50 percent only. *)
Theorem generateScenarios_omits_grid_fractions :
  inProduct dpOptions defaultSDOptions defaultBorrowers sd1B1B xiaoyu 0 0 /\
  loanQualifiesAndAffordable defaultXiamen sd1B1B xiaoyu 0 /\
  (exists r,
     In r (allResults pow_integral toString_integral toString_integral
             defaultXiamen defaultSDOptions defaultBorrowers 850 5) /\
     combination (CalculationResult.scenario r) sd1B1B xiaoyu 0 (inject_Z 0) 850) /\
  (forall s,
     In s (generateScenarios toString_integral defaultXiamen defaultSDOptions
             defaultBorrowers 850) ->
     ~ combination s sd1B1B xiaoyu 0 (inject_Z 0) 850) /\
  (forall s,
     In s (generateScenarios toString_integral defaultXiamen defaultSDOptions
             defaultBorrowers 850) ->
     InvestmentScenario.sellXiamen s = true ->
     In (InvestmentScenario.downPaymentPercent s) [0.2; 0.25; 0.3; 0.35; 0.5]).
Proof.
  assert (Hprod : inProduct dpOptions defaultSDOptions defaultBorrowers sd1B1B xiaoyu 0 0).
  { split; [left; reflexivity |].
    split; [right; right; left; reflexivity |].
    split; [left; reflexivity |].
    split; [lia | discriminate]. }
  assert (Hkept : loanQualifiesAndAffordable defaultXiamen sd1B1B xiaoyu 0).
  { split; [apply xiaoyu_qualifies; discriminate |].
    unfold affordable. vm_compute. discriminate. }
  assert (Hgrid : forall s,
            In s (generateScenarios toString_integral defaultXiamen defaultSDOptions
                    defaultBorrowers 850) ->
            InvestmentScenario.sellXiamen s = true ->
            In (InvestmentScenario.downPaymentPercent s) [0.2; 0.25; 0.3; 0.35; 0.5]).
  { intros s Hin Hsell. rewrite generateScenarios_cons in Hin.
    destruct Hin as [<- | Hin]; [discriminate Hsell |].
    apply generateScenarios_tl_In in Hin.
    destruct Hin as (property & borrower & dp & rooms & _ & _ & Hdp & _ & _ & ->).
    exact Hdp. }
  split; [exact Hprod |]. split; [exact Hkept |]. split; [| split; [| exact Hgrid]].
  - eexists. split.
    + rewrite allResults_cons. right. apply allResults_tl_In.
      exists sd1B1B, xiaoyu, 0, (inject_Z 0).
      split; [apply Hprod |]. split; [apply Hprod |]. split; [apply Hprod |].
      split; [exact Hkept |]. split; [| reflexivity].
      apply kept_room; [lia | discriminate].
    + rewrite calculateScenario_scenario. apply appScenario_combination.
  - intros s Hin (Hsell & _ & _ & Hdp & _).
    pose proof (Hgrid s Hin Hsell) as Hg. rewrite Hdp in Hg.
    repeat (destruct Hg as [Hg | Hg]; [discriminate Hg |]).
    exact Hg.
Qed.

(** ** The monthly figures in binary64 arithmetic *)

Module DoubleFacts.
Import PrimFloat.
Local Open Scope float_scope.
Local Set Warnings "-inexact-float".

(** C6, as stated, fails in the arithmetic of the program.  On the
    initial selection of the application with an SD rent of 850.1, the
    effective cashflow minus the actual cashflow is 850.0999999999999
    and not the imputed rent 850.1, both with the payment the program
    computes at 5.5% and with the payment of a loan at rate zero. *)
Lemma cashflow_difference_is_rounded :
  Double.monthlyImputedRent (Double.selectionAt850_1 Double.mortgageAt5_5) = 850.1 /\
  Double.monthlyEffectiveCashflow (Double.selectionAt850_1 Double.mortgageAt5_5)
  - Double.monthlyCashflow (Double.selectionAt850_1 Double.mortgageAt5_5)
  = Double.roundedDifference /\
  Double.differenceIsImputedRent (Double.selectionAt850_1 Double.mortgageAt5_5) = false /\
  forall Math_pow,
    Double.differenceIsImputedRent
      (Double.selectionAt850_1 (Double.mortgageAtZero Math_pow)) = false.
Proof.
  split; [reflexivity |]. split; [vm_compute; reflexivity |].
  split; [vm_compute; reflexivity |].
  intros Math_pow. vm_compute. reflexivity.
Qed.

End DoubleFacts.

(** * Further properties of the engine *)

(** ** Amortization schedule *)

Section AmortizationFacts.

Variable Math_pow : number -> number -> number.

(** X2. At a monthly rate that is not zero, the balance after the last
    payment of the term is zero. *)
Theorem calculateRemainingBalance_end (principal rate years : number) :
  ~ rate / 12 == 0 ->
  ~ Math_pow (1 + rate / 12) (years * 12) == 1 ->
  calculateRemainingBalance Math_pow principal rate years (years * 12) == 0.
Proof.
  intros Hr Hn. unfold number in *. unfold calculateRemainingBalance.
  apply strict_eqb_neq in Hr. rewrite Hr.
  field. intros H. apply Hn. lra.
Qed.

End AmortizationFacts.

(** ** Net proceeds *)

(** X4. With a positive exchange rate, a non-negative market value and a
    selling-cost rate between 0 and 1, the net proceeds lie between zero
    and the gross value in USD. *)
Theorem calculateXiamenNetProceeds_bounds (xiamen : XiamenProperty.t) :
  0 < XiamenProperty.exchangeRate xiamen ->
  0 <= XiamenProperty.marketValue xiamen ->
  0 <= XiamenProperty.sellingCostRate xiamen ->
  XiamenProperty.sellingCostRate xiamen <= 1 ->
  0 <= calculateXiamenNetProceeds xiamen /\
  calculateXiamenNetProceeds xiamen
  <= XiamenProperty.marketValue xiamen / XiamenProperty.exchangeRate xiamen.
Proof.
  intros He Hm Hc0 Hc1. unfold calculateXiamenNetProceeds.
  assert (Hg : 0 <= XiamenProperty.marketValue xiamen / XiamenProperty.exchangeRate xiamen).
  { apply Qle_shift_div_l; [exact He | lra]. }
  set (g := XiamenProperty.marketValue xiamen / XiamenProperty.exchangeRate xiamen) in *.
  set (c := XiamenProperty.sellingCostRate xiamen) in *.
  split; nra.
Qed.

(** ** Loan selection across down payments and list orders *)

Lemma getBestLoanOption_minimal (borrower : Borrower.t) (dp : number)
  (opt o : LoanOption.t) :
  getBestLoanOption borrower dp = Some opt ->
  In o (Borrower.loanOptions borrower) ->
  LoanOption.minDownPayment o <= dp ->
  LoanOption.interestRate opt <= LoanOption.interestRate o.
Proof.
  intros H Ho Hq. destruct (getBestLoanOption_Some _ _ H) as (b & a & Hs & _ & Hb & Ha).
  rewrite Hs in Ho. apply in_app_or in Ho. destruct Ho as [Ho | [<- | Ho]].
  - apply Qlt_le_weak. auto.
  - apply Qle_refl.
  - auto.
Qed.

Lemma getBestLoanOption_qualifying (borrower : Borrower.t) (dp : number)
  (opt : LoanOption.t) :
  getBestLoanOption borrower dp = Some opt ->
  In opt (Borrower.loanOptions borrower) /\ LoanOption.minDownPayment opt <= dp.
Proof.
  intros H. destruct (getBestLoanOption_Some _ _ H) as (b & a & Hs & Hq & _).
  split; [| exact Hq]. rewrite Hs. apply in_or_app. right. left. reflexivity.
Qed.

(** X5. A larger down payment never loses the qualification and never
    raises the selected rate. *)
Theorem getBestLoanOption_monotone (borrower : Borrower.t) (dp dp' : number)
  (opt : LoanOption.t) :
  dp <= dp' ->
  getBestLoanOption borrower dp = Some opt ->
  exists opt',
    getBestLoanOption borrower dp' = Some opt' /\
    LoanOption.interestRate opt' <= LoanOption.interestRate opt.
Proof.
  intros Hle H. destruct (getBestLoanOption_qualifying _ _ H) as [Hin Hq].
  assert (Hq' : LoanOption.minDownPayment opt <= dp') by (eapply Qle_trans; eauto).
  destruct (getBestLoanOption borrower dp') as [opt'|] eqn:E.
  - exists opt'. split; [reflexivity |].
    exact (getBestLoanOption_minimal _ _ E Hin Hq').
  - exfalso. exact (proj1 (getBestLoanOption_None borrower dp') E opt Hin Hq').
Qed.

(** X6. The selected rate, and whether anything is selected, depend on the
    options a borrower has and not on their order. *)
Theorem getBestLoanOption_order_insensitive (b1 b2 : Borrower.t) (dp : number) :
  Permutation (Borrower.loanOptions b1) (Borrower.loanOptions b2) ->
  match getBestLoanOption b1 dp, getBestLoanOption b2 dp with
  | Some o1, Some o2 => LoanOption.interestRate o1 == LoanOption.interestRate o2
  | None, None => True
  | _, _ => False
  end.
Proof.
  intros Hp.
  destruct (getBestLoanOption b1 dp) as [o1|] eqn:E1;
    destruct (getBestLoanOption b2 dp) as [o2|] eqn:E2.
  - destruct (getBestLoanOption_qualifying _ _ E1) as [Hin1 Hq1].
    destruct (getBestLoanOption_qualifying _ _ E2) as [Hin2 Hq2].
    apply Qle_antisym.
    + apply (getBestLoanOption_minimal _ _ E1); [| exact Hq2].
      eapply Permutation_in; [symmetry; exact Hp | exact Hin2].
    + apply (getBestLoanOption_minimal _ _ E2); [| exact Hq1].
      eapply Permutation_in; [exact Hp | exact Hin1].
  - destruct (getBestLoanOption_qualifying _ _ E1) as [Hin1 Hq1].
    apply (proj1 (getBestLoanOption_None b2 dp) E2 o1); [| exact Hq1].
    eapply Permutation_in; [exact Hp | exact Hin1].
  - destruct (getBestLoanOption_qualifying _ _ E2) as [Hin2 Hq2].
    apply (proj1 (getBestLoanOption_None b1 dp) E1 o2); [| exact Hq2].
    eapply Permutation_in; [symmetry; exact Hp | exact Hin2].
  - exact I.
Qed.

Lemma getBestLoanOption_single (borrower : Borrower.t) (opt : LoanOption.t) (dp : number) :
  Borrower.loanOptions borrower = [opt] ->
  getBestLoanOption borrower dp = if qualifies dp opt then Some opt else None.
Proof.
  intros H. unfold getBestLoanOption. rewrite H. cbn [filter].
  destruct (qualifies dp opt); reflexivity.
Qed.

(** X7. With a single loan option, as for the borrower built from the
    co-borrowers, selection is the qualification test. *)
Theorem currentBorrower_selection (coBorrowers : list CoBorrower.t)
  (loanType : SelectableLoanType) (customInterestRate : option number) (dp : number) :
  let b := currentBorrower coBorrowers loanType customInterestRate in
  let config := currentLoanConfig loanType customInterestRate in
  (config_minDownPayment config <= dp ->
   exists opt, getBestLoanOption b dp = Some opt /\
     Borrower.loanOptions b = [opt] /\
     LoanOption.interestRate opt = config_interestRate config /\
     LoanOption.pmi opt = Some (config_pmi config)) /\
  (dp < config_minDownPayment config -> getBestLoanOption b dp = None) /\
  (customInterestRate = None ->
   config_interestRate config = config_interestRate (LOAN_TYPES loanType)) /\
  (forall rate, customInterestRate = Some rate -> config_interestRate config = rate).
Proof.
  intros b config.
  destruct (Borrower.loanOptions b) as [|opt rest] eqn:Hopts; [discriminate Hopts |].
  injection Hopts as Hopt Hrest. subst rest.
  assert (Hsingle : Borrower.loanOptions b = [opt]) by (rewrite <- Hopt; reflexivity).
  rewrite (getBestLoanOption_single b dp Hsingle). unfold qualifies.
  assert (Hmin : LoanOption.minDownPayment opt = config_minDownPayment config)
    by (rewrite <- Hopt; reflexivity).
  rewrite Hmin.
  split; [| split; [| split]].
  - intros Hq. apply geb_ge in Hq. rewrite Hq. exists opt.
    split; [reflexivity |]. split; [reflexivity |].
    rewrite <- Hopt. split; reflexivity.
  - intros Hlt. apply geb_lt in Hlt. rewrite Hlt. reflexivity.
  - intros ->. reflexivity.
  - intros rate ->. reflexivity.
Qed.


(** ** Relations between the fields of a result *)

Section ResultFacts.

Variable Math_pow : number -> number -> number.

(** X10. Two scenarios for the same property, borrower and down payment that
    differ in the rooms let: the costs, the mortgage, the remaining
    cash, the DTI and the equity at the horizon are the same, and with
    a rent per room that is not negative, letting more rooms never
    lowers the rental income or the monthly cashflow. *)
Theorem sellAndBuy_rooms_only_move_rent (s1 s2 : InvestmentScenario.t)
  (property : SDPropertyOption.t) (xiamen : XiamenProperty.t) (years : number) :
  InvestmentScenario.sellXiamen s1 = true ->
  InvestmentScenario.sellXiamen s2 = true ->
  InvestmentScenario.sdProperty s1 = Some property ->
  InvestmentScenario.sdProperty s2 = Some property ->
  InvestmentScenario.downPaymentPercent s1 = InvestmentScenario.downPaymentPercent s2 ->
  InvestmentScenario.borrower s1 = InvestmentScenario.borrower s2 ->
  let r1 := calculateScenario Math_pow s1 xiamen years in
  let r2 := calculateScenario Math_pow s2 xiamen years in
  CalculationResult.monthlyMortgage r2 = CalculationResult.monthlyMortgage r1 /\
  CalculationResult.downPayment r2 = CalculationResult.downPayment r1 /\
  CalculationResult.closingCosts r2 = CalculationResult.closingCosts r1 /\
  CalculationResult.remainingCash r2 = CalculationResult.remainingCash r1 /\
  CalculationResult.dti r2 = CalculationResult.dti r1 /\
  CalculationResult.mortgageToIncomeRatio r2 = CalculationResult.mortgageToIncomeRatio r1 /\
  CalculationResult.year5Equity r2 = CalculationResult.year5Equity r1 /\
  (0 <= SDPropertyOption.monthlyRent property ->
   InvestmentScenario.roomsToRent s1 <= InvestmentScenario.roomsToRent s2 ->
   CalculationResult.monthlyRentalIncome r1 <= CalculationResult.monthlyRentalIncome r2 /\
   CalculationResult.monthlyCashflow r1 <= CalculationResult.monthlyCashflow r2).
Proof.
  intros Hs1 Hs2 Hp1 Hp2 Hdp Hb r1 r2. subst r1 r2. unfold number in *.
  rewrite (@calculateScenario_sellAndBuy Math_pow _ _ xiamen years Hs1 Hp1).
  rewrite (@calculateScenario_sellAndBuy Math_pow _ _ xiamen years Hs2 Hp2).
  unfold sellAndBuy. rewrite <- Hdp, <- Hb.
  destruct (financing (InvestmentScenario.borrower s1)
              (InvestmentScenario.downPaymentPercent s1)) as [rate pmi].
  cbn. repeat (split; [reflexivity |]).
  intros Hrent Hrooms.
  assert (Hinc : SDPropertyOption.monthlyRent property * InvestmentScenario.roomsToRent s1
                 <= SDPropertyOption.monthlyRent property * InvestmentScenario.roomsToRent s2)
    by nra.
  split; [exact Hinc | lra].
Qed.

Lemma incomeOrDefault_nonzero (borrower : option Borrower.t) :
  ~ incomeOrDefault borrower == 0.
Proof.
  unfold incomeOrDefault. destruct borrower as [b|]; [| discriminate].
  destruct (truthy (Borrower.monthlyIncome b)) eqn:E; [| discriminate].
  unfold truthy in E. apply negb_true_iff in E. apply strict_eqb_neq in E. exact E.
Qed.

(** X11. The income that divides the debt is never zero: it is the
    borrower's income, or 5000 when there is no borrower or the income
    is zero.  The DTI is the mortgage, the carrying cost and the
    insurance premium over that income, in percent; with a positive
    income and a carrying cost and a premium that are not negative it
    is at least the mortgage-to-income ratio. *)
Theorem sellAndBuy_dti_income (s : InvestmentScenario.t) (property : SDPropertyOption.t)
  (xiamen : XiamenProperty.t) (years : number) :
  InvestmentScenario.sellXiamen s = true ->
  InvestmentScenario.sdProperty s = Some property ->
  let r := calculateScenario Math_pow s xiamen years in
  let income := incomeOrDefault (InvestmentScenario.borrower s) in
  let pmi := snd (financing (InvestmentScenario.borrower s)
                    (InvestmentScenario.downPaymentPercent s)) in
  ~ income == 0 /\
  (InvestmentScenario.borrower s = None -> income = 5000) /\
  (forall b, InvestmentScenario.borrower s = Some b ->
     (Borrower.monthlyIncome b == 0 -> income = 5000) /\
     (~ Borrower.monthlyIncome b == 0 -> income = Borrower.monthlyIncome b)) /\
  CalculationResult.dti r
  = (CalculationResult.monthlyMortgage r + SDPropertyOption.hoaAndTax property + pmi)
    / income * 100 /\
  CalculationResult.mortgageToIncomeRatio r
  = CalculationResult.monthlyMortgage r / income * 100 /\
  (0 < income -> 0 <= SDPropertyOption.hoaAndTax property -> 0 <= pmi ->
   CalculationResult.mortgageToIncomeRatio r <= CalculationResult.dti r).
Proof.
  intros Hs Hp r income pmi. subst r income pmi. unfold number in *.
  pose proof (incomeOrDefault_nonzero (InvestmentScenario.borrower s)) as Hnz.
  split; [exact Hnz |]. split; [intros ->; reflexivity |]. split.
  - intros b ->. cbn. unfold truthy. split; intros H.
    + apply strict_eqb_eq in H. rewrite H. reflexivity.
    + apply strict_eqb_neq in H. rewrite H. reflexivity.
  - rewrite (@calculateScenario_sellAndBuy Math_pow _ _ xiamen years Hs Hp).
    unfold sellAndBuy.
    destruct (financing (InvestmentScenario.borrower s)
                (InvestmentScenario.downPaymentPercent s)) as [rate pmi].
    cbn. split; [reflexivity |]. split; [reflexivity |].
    intros Hi Hh Hpmi. unfold Qdiv.
    pose proof (Qinv_lt_0_compat _ Hi) as Hinv.
    set (i := / incomeOrDefault (InvestmentScenario.borrower s)) in *.
    set (m := calculateMonthlyMortgage Math_pow _ _ _).
    set (hoa := SDPropertyOption.hoaAndTax property) in *.
    assert (0 <= hoa * i) by nra. assert (0 <= pmi * i) by nra. nra.
Qed.

(** X12. [calculateAllScenarios] returns one result per scenario, in the
    order of the scenarios, each carrying its scenario. *)
Theorem calculateAllScenarios_in_order (scenarios : list InvestmentScenario.t)
  (xiamen : XiamenProperty.t) (years : number) :
  map (@CalculationResult.scenario) (calculateAllScenarios Math_pow scenarios xiamen years)
  = scenarios /\
  List.length (calculateAllScenarios Math_pow scenarios xiamen years)
  = List.length scenarios /\
  forall i s, nth_error scenarios i = Some s ->
    nth_error (calculateAllScenarios Math_pow scenarios xiamen years) i
    = Some (calculateScenario Math_pow s xiamen years).
Proof.
  unfold calculateAllScenarios. split; [| split].
  - rewrite map_map. rewrite <- (map_id scenarios) at 2.
    apply map_ext. intros s. apply calculateScenario_scenario.
  - apply length_map.
  - intros i s H.
    exact (map_nth_error (fun s => calculateScenario Math_pow s xiamen years) i scenarios H).
Qed.

End ResultFacts.

(** ** The enumerations and the evaluator together *)

Section PipelineFacts.

Variable Math_pow : number -> number -> number.
Variable Number_toString : number -> string.
Variable Number_toFixed0 : number -> string.

(** The mortgage and the remaining cash of a sell-and-buy result. *)
Lemma sellAndBuy_mortgage_and_cash (s : InvestmentScenario.t) (property : SDPropertyOption.t)
  (xiamen : XiamenProperty.t) (years : number) :
  InvestmentScenario.sellXiamen s = true ->
  InvestmentScenario.sdProperty s = Some property ->
  let r := calculateScenario Math_pow s xiamen years in
  let dp := InvestmentScenario.downPaymentPercent s in
  CalculationResult.monthlyMortgage r
  = calculateMonthlyMortgage Math_pow
      (SDPropertyOption.price property - SDPropertyOption.price property * dp)
      (fst (financing (InvestmentScenario.borrower s) dp)) 30 /\
  CalculationResult.remainingCash r
  = calculateXiamenNetProceeds xiamen
    - (SDPropertyOption.price property * dp + SDPropertyOption.price property * 0.03).
Proof.
  intros Hs Hp r dp. subst r dp.
  rewrite (@calculateScenario_sellAndBuy Math_pow _ _ xiamen years Hs Hp).
  unfold sellAndBuy.
  destruct (financing (InvestmentScenario.borrower s)
              (InvestmentScenario.downPaymentPercent s)) as [rate pmi].
  cbn. split; reflexivity.
Qed.

(** What holds of the evaluation of a scenario whose borrower has a
    qualifying option: the default rate is not used. *)
Lemma evaluated_with_selected_option (s : InvestmentScenario.t)
  (property : SDPropertyOption.t) (b : Borrower.t) (xiamen : XiamenProperty.t)
  (years : number) :
  InvestmentScenario.sellXiamen s = true ->
  InvestmentScenario.sdProperty s = Some property ->
  InvestmentScenario.borrower s = Some b ->
  getBestLoanOption b (InvestmentScenario.downPaymentPercent s) <> None ->
  exists opt,
    getBestLoanOption b (InvestmentScenario.downPaymentPercent s) = Some opt /\
    In opt (Borrower.loanOptions b) /\
    LoanOption.minDownPayment opt <= InvestmentScenario.downPaymentPercent s /\
    CalculationResult.monthlyMortgage (calculateScenario Math_pow s xiamen years)
    = calculateMonthlyMortgage Math_pow
        (SDPropertyOption.price property
         - SDPropertyOption.price property * InvestmentScenario.downPaymentPercent s)
        (LoanOption.interestRate opt) 30.
Proof.
  intros Hs Hp Hb Hq.
  destruct (getBestLoanOption b (InvestmentScenario.downPaymentPercent s))
    as [opt|] eqn:E; [| congruence].
  exists opt. split; [reflexivity |].
  destruct (getBestLoanOption_qualifying _ _ E) as [Hin Hmin].
  split; [exact Hin |]. split; [exact Hmin |].
  destruct (@sellAndBuy_mortgage_and_cash s property xiamen years Hs Hp) as [Hm _].
  rewrite Hm, Hb. destruct (financing_selected _ _ E) as [Hrate _].
  rewrite Hrate. reflexivity.
Qed.

(** X13. Every sell-and-buy result of [allResults] is financed by an option
    of its borrower that qualifies for its down payment: the default
    rate of 6.5% is never used there, and the cash left after the
    purchase is not negative. *)
Theorem allResults_financed_and_affordable (xiamen : XiamenProperty.t)
  (sdOptions : list SDPropertyOption.t) (borrowers : list Borrower.t)
  (rent years : number) (r : CalculationResult.t) :
  In r (allResults Math_pow Number_toString Number_toFixed0
          xiamen sdOptions borrowers rent years) ->
  InvestmentScenario.sellXiamen (CalculationResult.scenario r) = true ->
  let s := CalculationResult.scenario r in
  0 <= CalculationResult.remainingCash r /\
  exists property b opt,
    InvestmentScenario.sdProperty s = Some property /\
    InvestmentScenario.borrower s = Some b /\
    getBestLoanOption b (InvestmentScenario.downPaymentPercent s) = Some opt /\
    In opt (Borrower.loanOptions b) /\
    LoanOption.minDownPayment opt <= InvestmentScenario.downPaymentPercent s /\
    CalculationResult.monthlyMortgage r
    = calculateMonthlyMortgage Math_pow
        (SDPropertyOption.price property
         - SDPropertyOption.price property * InvestmentScenario.downPaymentPercent s)
        (LoanOption.interestRate opt) 30.
Proof.
  intros Hin Hsell s. subst s. rewrite allResults_cons in Hin.
  destruct Hin as [<- | Hin].
  - rewrite calculateScenario_scenario in Hsell. discriminate Hsell.
  - apply allResults_tl_In in Hin.
    destruct Hin as (property & b & dp & rooms & _ & _ & _ & [Hq Ha] & _ & ->).
    rewrite calculateScenario_scenario.
    set (s := appScenario Number_toString Number_toFixed0 property b dp rooms rent).
    split.
    + destruct (@sellAndBuy_mortgage_and_cash s property xiamen years eq_refl eq_refl)
        as [_ Hc].
      rewrite Hc. cbn. unfold affordable in Ha. lra.
    + destruct (@evaluated_with_selected_option s property b xiamen years
                  eq_refl eq_refl eq_refl Hq) as (opt & H1 & H2 & H3 & H4).
      exists property, b, opt. auto 6.
Qed.

(** X14. The same for the scenarios of [generateScenarios] evaluated by
    [calculateAllScenarios]: the first result is the hold-and-rent
    evaluation of the baseline, and every sell-and-buy result is
    financed by a qualifying option of its borrower. *)
Theorem generated_results_financed (xiamen : XiamenProperty.t)
  (sdOptions : list SDPropertyOption.t) (borrowers : list Borrower.t)
  (rent years : number) :
  let results :=
    calculateAllScenarios Math_pow
      (generateScenarios Number_toString xiamen sdOptions borrowers rent) xiamen years in
  hd_error results = Some (holdAndRent Math_pow (baseline rent) xiamen years) /\
  forall r, In r results ->
    InvestmentScenario.sellXiamen (CalculationResult.scenario r) = true ->
    let s := CalculationResult.scenario r in
    exists property b opt,
      InvestmentScenario.sdProperty s = Some property /\
      InvestmentScenario.borrower s = Some b /\
      getBestLoanOption b (InvestmentScenario.downPaymentPercent s) = Some opt /\
      LoanOption.minDownPayment opt <= InvestmentScenario.downPaymentPercent s /\
      CalculationResult.monthlyMortgage r
      = calculateMonthlyMortgage Math_pow
          (SDPropertyOption.price property
           - SDPropertyOption.price property * InvestmentScenario.downPaymentPercent s)
          (LoanOption.interestRate opt) 30.
Proof.
  intros results. subst results. unfold calculateAllScenarios. split; [reflexivity |].
  intros r Hin Hsell. apply in_map_iff in Hin.
  destruct Hin as (s & <- & Hin). rewrite calculateScenario_scenario in *.
  rewrite generateScenarios_cons in Hin. destruct Hin as [<- | Hin];
    [discriminate Hsell |].
  apply generateScenarios_tl_In in Hin.
  destruct Hin as (property & b & dp & rooms & _ & _ & _ & Hq & _ & ->).
  destruct (@evaluated_with_selected_option
              (generatedScenario Number_toString property b dp rooms rent)
              property b xiamen years eq_refl eq_refl eq_refl Hq)
    as (opt & H1 & H2 & H3 & H4).
  exists property, b, opt. auto 6.
Qed.

End PipelineFacts.

(** ** Shape of the frontier *)

Lemma StronglySorted_impl_In (A : Type) (R S : A -> A -> Prop) (l : list A) :
  (forall a b, In a l -> In b l -> R a b -> S a b) ->
  StronglySorted R l -> StronglySorted S l.
Proof.
  induction l as [|x l IH]; intros H Hs; [constructor |].
  apply StronglySorted_inv in Hs. destruct Hs as [Hs Hx]. constructor.
  - apply IH; [| exact Hs]. intros a b Ha Hb. apply H; right; assumption.
  - rewrite Forall_forall in *. intros y Hy.
    apply H; [left; reflexivity | right; exact Hy | exact (Hx y Hy)].
Qed.

(** Sorting a list that is already ascending leaves it as it is. *)
Lemma Array_sort_ascending_id (A : Type) (key : A -> number) (l : list A) :
  ascendingBy key l -> Array_sort (fun a b => key a - key b) l = l.
Proof.
  unfold ascendingBy. induction l as [|x l IH]; intros Hs; [reflexivity |].
  apply StronglySorted_inv in Hs. destruct Hs as [Hs Hx].
  simpl. rewrite (IH Hs). destruct l as [|y l]; [reflexivity |]. simpl.
  apply Forall_inv in Hx.
  assert (E : gtb (key x - key y) 0 = false) by (apply gtb_le; lra).
  rewrite E. reflexivity.
Qed.

(** X15. A non-empty input has a non-empty frontier. *)
Theorem findParetoFrontier_nonempty (h : store) (results : list ref) :
  results <> [] -> findParetoFrontier h results <> [].
Proof.
  intros Hne. destruct results as [|x results]; [congruence |].
  destruct (undominated_above CalculationResult.cashflowAPY
              CalculationResult.year5AnnualizedROI h (x :: results) x)
    as (m & _ & Hm & Hmax).
  assert (Hin : In m (findParetoFrontier h (x :: results))).
  { apply findParetoFrontier_In. split.
    - destruct Hm as [-> | Hm]; [left; reflexivity | exact Hm].
    - apply isDominated_false. exact Hmax. }
  intros E. rewrite E in Hin. exact Hin.
Qed.

(** X16. The frontier of a frontier is that frontier. *)
Theorem findParetoFrontier_idempotent (h : store) (results : list ref) :
  findParetoFrontier h (findParetoFrontier h results) = findParetoFrontier h results.
Proof.
  set (F := findParetoFrontier h results).
  unfold findParetoFrontier at 1.
  assert (Hkeep : filter (fun r => negb (isDominated h F r)) F = F).
  { transitivity (filter (fun _ => true) F); [| apply filter_true].
    apply filter_ext_in. intros r Hr.
    apply negb_true_iff. apply isDominated_false. intros o Ho.
    apply findParetoFrontier_In in Hr. destruct Hr as [_ Hnd].
    apply findParetoFrontier_In in Ho. destruct Ho as [Ho _].
    exact (proj1 (isDominated_false h results r) Hnd o Ho). }
  rewrite Hkeep.
  apply (@Array_sort_ascending_id _ (fun r => CalculationResult.cashflowAPY (h r)) _).
  apply (Array_sort_ascending (fun r => CalculationResult.cashflowAPY (h r))).
Qed.

(** X17. Along the returned frontier the cashflow APY ascends and the
    annualized ROI descends: a later result never has a higher ROI than
    an earlier one. *)
Theorem findParetoFrontier_staircase (h : store) (results : list ref) :
  ascendingBy (fun r => CalculationResult.cashflowAPY (h r))
    (findParetoFrontier h results) /\
  descendingBy (fun r => CalculationResult.year5AnnualizedROI (h r))
    (findParetoFrontier h results).
Proof.
  assert (Hasc : ascendingBy (fun r => CalculationResult.cashflowAPY (h r))
                   (findParetoFrontier h results))
    by apply (Array_sort_ascending (fun r => CalculationResult.cashflowAPY (h r))).
  split; [exact Hasc |].
  unfold descendingBy. eapply StronglySorted_impl_In; [| exact Hasc].
  intros a b Ha Hb Hab. cbv beta in Hab.
  apply findParetoFrontier_In in Ha. destruct Ha as [_ Hnd].
  apply findParetoFrontier_In in Hb. destruct Hb as [Hb _].
  apply Qnot_lt_le. intros Hlt.
  apply (proj1 (isDominated_false h results a) Hnd b Hb).
  unfold DominationRule. split; [exact Hab |]. split; [apply Qlt_le_weak; exact Hlt |].
  right. exact Hlt.
Qed.

Lemma Permutation_filter_both (A : Type) (f : A -> bool) (l l' : list A) :
  Permutation l l' -> Permutation (filter f l) (filter f l').
Proof.
  induction 1 as [| x l l' _ IH | x y l | l l' l'' _ IH1 _ IH2]; simpl.
  - constructor.
  - destruct (f x); [constructor |]; exact IH.
  - destruct (f x), (f y); try reflexivity. apply perm_swap.
  - etransitivity; eassumption.
Qed.

(** X18. The frontier does not depend on the order of the input: reordering
    the results reorders the frontier at most. *)
Theorem findParetoFrontier_input_order (h : store) (results results' : list ref) :
  Permutation results results' ->
  Permutation (findParetoFrontier h results) (findParetoFrontier h results').
Proof.
  intros Hp.
  rewrite (findParetoFrontier_perm h results), (findParetoFrontier_perm h results').
  assert (Hext : forall r, isDominated h results r = isDominated h results' r).
  { intros r. destruct (isDominated h results' r) eqn:E.
    - apply isDominated_true in E. destruct E as (o & Ho & Hd).
      apply isDominated_true. exists o. split; [| exact Hd].
      eapply Permutation_in; [symmetry; exact Hp | exact Ho].
    - apply isDominated_false. intros o Ho.
      apply (proj1 (isDominated_false h results' r) E).
      eapply Permutation_in; [exact Hp | exact Ho]. }
  assert (Hf : filter (fun r => negb (isDominated h results r)) results
               = filter (fun r => negb (isDominated h results' r)) results).
  { apply filter_ext. intros r. rewrite Hext. reflexivity. }
  rewrite Hf. apply Permutation_filter_both. exact Hp.
Qed.

(** ** The derived values of the application *)

Lemma PropertyType_eqb_eq (a b : PropertyType) : PropertyType_eqb a b = true <-> a = b.
Proof.
  destruct a, b; simpl; split; intros H; try reflexivity; discriminate H.
Qed.


(** X19. Editing the price of the selected type: the list keeps its length
    and its types, the selected property is found again with the new
    price and its other fields untouched, a type that was missing stays
    missing, and the lookup of any other type is unchanged. *)
Theorem onPriceChange_lookup (sdOptions : list SDPropertyOption.t)
  (selected : PropertyType) (value : number) :
  map (@SDPropertyOption.type) (onPriceChange sdOptions selected value)
  = map (@SDPropertyOption.type) sdOptions /\
  (forall p, selectedProperty sdOptions selected = Some p ->
     selectedProperty (onPriceChange sdOptions selected value) selected
     = Some {| SDPropertyOption.type := SDPropertyOption.type p;
               SDPropertyOption.price := value;
               SDPropertyOption.monthlyRent := SDPropertyOption.monthlyRent p;
               SDPropertyOption.rooms := SDPropertyOption.rooms p;
               SDPropertyOption.appreciationRate := SDPropertyOption.appreciationRate p;
               SDPropertyOption.hoaAndTax := SDPropertyOption.hoaAndTax p |}) /\
  (selectedProperty sdOptions selected = None ->
   selectedProperty (onPriceChange sdOptions selected value) selected = None) /\
  (forall other, other <> selected ->
     selectedProperty (onPriceChange sdOptions selected value) other
     = selectedProperty sdOptions other).
Proof.
  unfold selectedProperty, onPriceChange.
  induction sdOptions as [|q l (IH1 & IH2 & IH3 & IH4)].
  - repeat split; try reflexivity. intros p H. discriminate H.
  - cbn [map find].
    destruct (PropertyType_eqb (SDPropertyOption.type q) selected) eqn:E.
    + cbn [SDPropertyOption.type]. rewrite E.
      split; [rewrite IH1; reflexivity |].
      split; [intros p H; injection H as <-; reflexivity |].
      split; [intros H; discriminate H |].
      intros other Hne.
      destruct (PropertyType_eqb (SDPropertyOption.type q) other) eqn:E'.
      * apply PropertyType_eqb_eq in E, E'. congruence.
      * apply IH4. exact Hne.
    + rewrite E.
      split; [rewrite IH1; reflexivity |].
      split; [exact IH2 |]. split; [exact IH3 |].
      intros other Hne.
      destruct (PropertyType_eqb (SDPropertyOption.type q) other); [reflexivity |].
      apply IH4. exact Hne.
Qed.

Section AppDerivedFacts.

Variable Math_pow : number -> number -> number.
Variable Number_toString : number -> string.
Variable Number_toFixed0 : number -> string.

(** X20. The lookup of the baseline among the results of either enumeration
    succeeds, and finds the hold-and-rent evaluation of the baseline. *)
Theorem baselineResult_found (xiamen : XiamenProperty.t)
  (sdOptions : list SDPropertyOption.t) (borrowers : list Borrower.t)
  (b : Borrower.t) (rent years : number) :
  baselineResult (allResults Math_pow Number_toString Number_toFixed0
                    xiamen sdOptions borrowers rent years)
  = Some (holdAndRent Math_pow (baseline rent) xiamen years) /\
  baselineResult (allResultsSingle Math_pow Number_toString Number_toFixed0
                    xiamen sdOptions b rent years)
  = Some (holdAndRent Math_pow (baseline rent) xiamen years) /\
  baselineResult [] = None.
Proof.
  repeat split.
Qed.


(** X22. Every point plotted from [allResults] stands for a sell-and-buy
    result of a kept combination whose DTI is below 43; its first
    coordinate is the effective cashflow APY.  The baseline is not
    plotted, and no more points are plotted than there are results. *)
Theorem paretoData_of_allResults (xiamen : XiamenProperty.t)
  (sdOptions : list SDPropertyOption.t) (borrowers : list Borrower.t)
  (rent years : number) :
  let results := allResults Math_pow Number_toString Number_toFixed0
                   xiamen sdOptions borrowers rent years in
  (forall pt, In pt (paretoData results) ->
     exists r property borrower dp rooms,
       In r results /\
       In property sdOptions /\ In borrower borrowers /\ In dp dpOptions /\
       loanQualifiesAndAffordable xiamen property borrower dp /\
       CalculationResult.scenario r
       = appScenario Number_toString Number_toFixed0 property borrower dp rooms rent /\
       CalculationResult.dti r < 43 /\
       point_cashflowAPY pt = CalculationResult.effectiveCashflowAPY r /\
       point_year5ROI pt = CalculationResult.year5AnnualizedROI r /\
       point_id pt = InvestmentScenario.id (CalculationResult.scenario r)) /\
  paretoData results = paretoData (tl results) /\
  (List.length (paretoData results) < List.length results)%nat.
Proof.
  intros results. subst results. split; [| split].
  - intros pt Hpt. apply paretoData_In in Hpt.
    destruct Hpt as (r & Hr & Hsell & Hdti & ->).
    rewrite allResults_cons in Hr. destruct Hr as [<- | Hr].
    + rewrite calculateScenario_scenario in Hsell. discriminate Hsell.
    + pose proof Hr as Hr'. apply allResults_tl_In in Hr.
      destruct Hr as (property & borrower & dp & rooms & Hp & Hb & Hdp & Hk & _ & ->).
      eexists. exists property, borrower, dp, rooms.
      split; [rewrite allResults_cons; right; exact Hr' |].
      rewrite calculateScenario_scenario. repeat split; try assumption; apply Hk.
  - rewrite allResults_cons at 1. unfold paretoData. cbn [filter].
    rewrite calculateScenario_scenario. reflexivity.
  - rewrite allResults_cons at 1. unfold paretoData at 1. cbn [filter].
    rewrite calculateScenario_scenario. cbn [InvestmentScenario.sellXiamen baseline andb].
    rewrite length_map. rewrite allResults_cons. cbn [List.length tl].
    apply Nat.lt_succ_r. apply filter_length_le.
Qed.

End AppDerivedFacts.

(** ** The single-borrower variant *)

Lemma removeAt_length (A : Type) (l : list A) :
  forall index, (index < List.length l)%nat ->
                List.length (removeAt index l) = pred (List.length l).
Proof.
  induction l as [|x l IH]; intros index H; simpl in *; [lia |].
  destruct index as [|index]; [reflexivity |]. simpl.
  rewrite IH by lia. destruct l; simpl in *; lia.
Qed.

Lemma removeAt_out_of_range (A : Type) (l : list A) :
  forall index, (List.length l <= index)%nat -> removeAt index l = l.
Proof.
  induction l as [|x l IH]; intros index H; simpl in *; [reflexivity |].
  destruct index as [|index]; [lia |]. rewrite IH by lia. reflexivity.
Qed.

Lemma removeAt_In (A : Type) (l : list A) :
  forall index x, In x (removeAt index l) -> In x l.
Proof.
  induction l as [|y l IH]; intros index x H; simpl in *; [exact H |].
  destruct index as [|index]; [right; exact H |].
  destruct H as [-> | H]; [left; reflexivity | right; eapply IH; exact H].
Qed.

(** X23. Removing a co-borrower never empties the list: the last one stays.
    With two or more, the one at the index goes and the others keep
    their order; an index out of range removes nobody. *)
Theorem handleRemoveBorrower_keeps_one (coBorrowers : list CoBorrower.t) (index : nat) :
  (coBorrowers <> [] -> handleRemoveBorrower coBorrowers index <> []) /\
  ((List.length coBorrowers <= 1)%nat -> handleRemoveBorrower coBorrowers index = coBorrowers) /\
  ((1 < List.length coBorrowers)%nat -> (index < List.length coBorrowers)%nat ->
   List.length (handleRemoveBorrower coBorrowers index) = pred (List.length coBorrowers) /\
   handleRemoveBorrower coBorrowers index
   = firstn index coBorrowers ++ skipn (S index) coBorrowers) /\
  ((List.length coBorrowers <= index)%nat ->
   handleRemoveBorrower coBorrowers index = coBorrowers) /\
  (forall b, In b (handleRemoveBorrower coBorrowers index) -> In b coBorrowers).
Proof.
  unfold handleRemoveBorrower.
  destruct (1 <? List.length coBorrowers)%nat eqn:E.
  - apply Nat.ltb_lt in E. split; [| split; [| split; [| split]]].
    + intros _ H.
      destruct (Nat.lt_ge_cases index (List.length coBorrowers)) as [Hi | Hi].
      * pose proof (removeAt_length coBorrowers Hi) as Hl. rewrite H in Hl.
        simpl in Hl. lia.
      * rewrite (removeAt_out_of_range coBorrowers Hi) in H. subst. simpl in E. lia.
    + intros H. lia.
    + intros _ Hi. split; [apply removeAt_length; exact Hi |].
      clear E. revert index Hi.
      induction coBorrowers as [|x l IH]; intros index Hi; simpl in *; [lia |].
      destruct index as [|index]; [reflexivity |]. simpl. f_equal. apply IH. lia.
    + intros Hi. apply removeAt_out_of_range. exact Hi.
    + intros b. apply removeAt_In.
  - apply Nat.ltb_ge in E. split; [| split; [| split; [| split]]]; auto.
    intros H. lia.
Qed.

Lemma map_flat_map (A B C : Type) (g : B -> C) (f : A -> list B) (l : list A) :
  map g (flat_map f l) = flat_map (fun x => map g (f x)) l.
Proof.
  induction l as [|x l IH]; simpl; [reflexivity |].
  rewrite map_app, IH. reflexivity.
Qed.

Section SingleBorrowerFacts.

Variable Math_pow : number -> number -> number.
Variable Number_toString : number -> string.
Variable Number_toFixed0 : number -> string.

(** The evaluator does not read the labels of a scenario. *)
Lemma calculateScenario_ignores_labels (s1 s2 : InvestmentScenario.t)
  (xiamen : XiamenProperty.t) (years : number) :
  InvestmentScenario.sellXiamen s1 = InvestmentScenario.sellXiamen s2 ->
  InvestmentScenario.sdProperty s1 = InvestmentScenario.sdProperty s2 ->
  InvestmentScenario.downPaymentPercent s1 = InvestmentScenario.downPaymentPercent s2 ->
  InvestmentScenario.borrower s1 = InvestmentScenario.borrower s2 ->
  InvestmentScenario.roomsToRent s1 = InvestmentScenario.roomsToRent s2 ->
  InvestmentScenario.sdRentIfNotBuying s1 = InvestmentScenario.sdRentIfNotBuying s2 ->
  withoutLabels (calculateScenario Math_pow s1 xiamen years)
  = withoutLabels (calculateScenario Math_pow s2 xiamen years).
Proof.
  destruct s1, s2. cbn. intros -> -> -> -> -> ->.
  unfold calculateScenario, sellAndBuy. cbn.
  destruct sellXiamen0; [| reflexivity].
  destruct sdProperty0 as [property|]; [| reflexivity].
  destruct (financing borrower0 downPaymentPercent0). reflexivity.
Qed.

(** X24. The enumeration of the single-borrower variant computes the same
    results, in the same order, as [allResults] of [App.tsx] run on the
    list that holds that one borrower; only the labels of the scenarios
    differ. *)
Theorem allResultsSingle_agrees (xiamen : XiamenProperty.t)
  (sdOptions : list SDPropertyOption.t) (b : Borrower.t) (rent years : number) :
  map withoutLabels
    (allResultsSingle Math_pow Number_toString Number_toFixed0
       xiamen sdOptions b rent years)
  = map withoutLabels
      (allResults Math_pow Number_toString Number_toFixed0
         xiamen sdOptions [b] rent years).
Proof.
  unfold allResultsSingle, allResults. cbn [map]. f_equal.
  rewrite !map_flat_map. apply flat_map_ext. intros property.
  cbn [flat_map]. rewrite app_nil_r. rewrite !map_flat_map.
  apply flat_map_ext. intros dp.
  unfold singleCombination, appCombination.
  destruct (getBestLoanOption b dp); [| reflexivity].
  destruct (gtb (SDPropertyOption.price property * dp +
                 SDPropertyOption.price property * 0.03)
                (calculateXiamenNetProceeds xiamen)); [reflexivity |].
  rewrite !map_map. apply map_ext. intros rooms.
  apply calculateScenario_ignores_labels; reflexivity.
Qed.

End SingleBorrowerFacts.

Lemma calculateRemainingBalance_end_witness :
  calculateRemainingBalance pow_integral 1000 0.06 1 (1 * 12) == 0.
Proof.
  apply (@calculateRemainingBalance_end pow_integral 1000 0.06 1).
  - intros H. vm_compute in H. discriminate H.
  - intros H. vm_compute in H. discriminate H.
Defined.

Lemma calculateXiamenNetProceeds_bounds_witness :
  0 <= calculateXiamenNetProceeds defaultXiamen /\
  calculateXiamenNetProceeds defaultXiamen
  <= XiamenProperty.marketValue defaultXiamen / XiamenProperty.exchangeRate defaultXiamen.
Proof.
  apply (@calculateXiamenNetProceeds_bounds defaultXiamen);
    [reflexivity | discriminate | discriminate | discriminate].
Defined.

Lemma getBestLoanOption_monotone_witness :
  0.2 <= 0.25 /\
  exists opt', getBestLoanOption xiaoyu 0.25 = Some opt' /\
               LoanOption.interestRate opt' <= LoanOption.interestRate vaLoan.
Proof.
  split; [discriminate |].
  apply (@getBestLoanOption_monotone xiaoyu 0.2 0.25 vaLoan);
    [discriminate | reflexivity].
Defined.

Lemma getBestLoanOption_order_insensitive_witness :
  match getBestLoanOption xiaoyu 0.2,
        getBestLoanOption (Borrower.mk "reordered" 6000 [conventionalLoan; vaLoan]) 0.2 with
  | Some o1, Some o2 => LoanOption.interestRate o1 == LoanOption.interestRate o2
  | None, None => True
  | _, _ => False
  end.
Proof.
  apply (@getBestLoanOption_order_insensitive xiaoyu
           (Borrower.mk "reordered" 6000 [conventionalLoan; vaLoan]) 0.2).
  apply perm_swap.
Defined.

Lemma sellAndBuy_rooms_only_move_rent_witness :
  let oneRoom :=
    appScenario toString_integral toString_integral sd2B2B xiaoyu 0.2 1 850 in
  let r1 := calculateScenario pow_integral oneRoom defaultXiamen 5 in
  let r2 := calculateScenario pow_integral currentScenario defaultXiamen 5 in
  CalculationResult.dti r2 = CalculationResult.dti r1 /\
  CalculationResult.monthlyCashflow r1 <= CalculationResult.monthlyCashflow r2.
Proof.
  intros oneRoom r1 r2.
  destruct (@sellAndBuy_rooms_only_move_rent pow_integral oneRoom currentScenario sd2B2B
              defaultXiamen 5 eq_refl eq_refl eq_refl eq_refl eq_refl eq_refl)
    as (_ & _ & _ & _ & H1 & _ & _ & H2).
  split; [exact H1 |]. apply H2; discriminate.
Defined.

Lemma sellAndBuy_dti_income_witness :
  incomeOrDefault (InvestmentScenario.borrower currentScenario) = 6000 /\
  let r := calculateScenario pow_integral currentScenario defaultXiamen 5 in
  CalculationResult.mortgageToIncomeRatio r <= CalculationResult.dti r.
Proof.
  destruct (@sellAndBuy_dti_income pow_integral currentScenario sd2B2B defaultXiamen 5
              eq_refl eq_refl) as (_ & _ & H3 & _ & _ & H6).
  split; [apply (proj2 (H3 xiaoyu eq_refl)); discriminate |].
  apply H6; [reflexivity | discriminate | discriminate].
Defined.

Lemma allResults_financed_and_affordable_witness :
  let r := calculateScenario pow_integral
             (appScenario toString_integral toString_integral sd2B2B xiaoyu 0.2 2 850)
             defaultXiamen 5 in
  0 <= CalculationResult.remainingCash r.
Proof.
  intros r.
  apply (@allResults_financed_and_affordable pow_integral toString_integral
           toString_integral defaultXiamen defaultSDOptions defaultBorrowers 850 5 r).
  - rewrite allResults_cons. right. apply allResults_tl_In.
    exists sd2B2B, xiaoyu, 0.2, 2.
    split; [right; left; reflexivity |].
    split; [right; right; left; reflexivity |].
    split; [do 4 right; left; reflexivity |].
    split; [split; [apply xiaoyu_qualifies; discriminate |
                    unfold affordable; vm_compute; discriminate] |].
    split; [| reflexivity].
    apply roomCounts_In. exists 2%Z.
    split; [reflexivity |]. split; [lia | discriminate].
  - subst r. rewrite calculateScenario_scenario. reflexivity.
Defined.

Lemma findParetoFrontier_nonempty_witness :
  findParetoFrontier storeTwo [0%nat; 1%nat] <> [].
Proof.
  apply (@findParetoFrontier_nonempty storeTwo [0%nat; 1%nat]). discriminate.
Defined.

Lemma findParetoFrontier_input_order_witness :
  Permutation (findParetoFrontier storeTwo [0%nat; 1%nat])
              (findParetoFrontier storeTwo [1%nat; 0%nat]).
Proof.
  apply (@findParetoFrontier_input_order storeTwo [0%nat; 1%nat] [1%nat; 0%nat]).
  apply perm_swap.
Defined.

